(** * Sub-agent spawn-and-announce orchestrator

    A shallow embedding of
      - [src/agents/tools/sessions-spawn-tool.ts]  (the [sessions_spawn] tool),
      - [src/agents/subagent-announce.ts]           (announce flow, usage resolver),
    together with the properties the specification states about them.

    Conventions.
      - JavaScript strings are [string]; [undefined] is [None].
      - An awaited call either yields a value or throws: [Outcome].
      - Every call that leaves the module (gateway RPC, helper modules, the
        session store, timers, random UUIDs) is answered by an environment
        [Env] that sees the whole history of earlier calls, and is recorded,
        with its answer, in the chronological [trace] of the [World].
      - The process-wide sub-agent registry is part of the [World]. *)

From Stdlib Require Import ZArith QArith Qabs Qround String Ascii List Lia Bool.
From stdpp Require Import base gmap sets list strings pretty.

Open Scope string_scope.
Open Scope list_scope.
Open Scope Z_scope.

#[local] Set Warnings "-clear-no-such-hyp".

(** ** JavaScript values and strings *)

(** The numbers a JavaScript [number] can hold.  A finite double is a
    rational number, which is all [Math.floor] and [Math.max] look at. *)
Inductive JsNumber :=
| JsNaN
| JsPosInfinity
| JsNegInfinity
| JsFinite (q : Q).

(** The values a field of the untyped argument record
    ([Record<string, unknown>]) can hold. *)
Inductive JsValue :=
| JsUndefined
| JsNull
| JsBool (b : bool)
| JsNum (n : JsNumber)
| JsStr (s : string)
| JsObject.

(** [haystack.includes(needle)] *)
Fixpoint includes (haystack needle : string) : bool :=
  String.prefix needle haystack
  || match haystack with
     | EmptyString => false
     | String _ rest => includes rest needle
     end.

(** JavaScript truthiness of a possibly undefined string. *)
Definition truthy (s : option string) : bool :=
  match s with
  | Some (String _ _) => true
  | _ => false
  end.

(** [lines.filter(Boolean).join(sep)] on possibly undefined strings. *)
Definition filterBoolean (lines : list (option string)) : list string :=
  omap (fun l => if truthy l then l else None) lines.

Definition join (sep : string) (parts : list string) : string :=
  String.concat sep parts.

(** ** Exceptions *)

(** What a [catch (err)] clause can tell apart. *)
Inductive Thrown :=
| ThrownError (message : string)
| ThrownString (s : string)
| ThrownOther.

Inductive Outcome (A : Type) :=
| Return (a : A)
| Raise (e : Thrown).
Arguments Return {A} a.
Arguments Raise {A} e.

(** [err instanceof Error ? err.message : typeof err === "string" ? err : "error"] *)
Definition messageTextOf (err : Thrown) : string :=
  match err with
  | ThrownError m => m
  | ThrownString s => s
  | ThrownOther => "error"
  end.

(** ** Data model *)

Inductive Cleanup := CleanupDelete | CleanupKeep.

#[global] Instance Cleanup_eq_dec : EqDecision Cleanup.
Proof. solve_decision. Defined.

Record SubagentRun := {
  run_runId : string;
  run_childSessionKey : string;
  run_requesterSessionKey : string;
  run_requesterProvider : option string;
  run_requesterDisplayKey : string;
  run_task : string;
  run_cleanup : Cleanup;
}.

(** The argument record of [runSubagentAnnounceFlow]. *)
Record AnnounceParams := {
  ap_childSessionKey : string;
  ap_childRunId : string;
  ap_requesterSessionKey : string;
  ap_requesterProvider : option string;
  ap_requesterDisplayKey : string;
  ap_task : string;
  ap_timeoutMs : Z;
  ap_cleanup : Cleanup;
  ap_roundOneReply : option string;
  ap_waitForCompletion : option bool;
  ap_startedAt : option Z;
  ap_endedAt : option Z;
}.

(** ** Subagent registry *)

(** Modelled from the spec: the Subagent Registry ([subagent-registry.ts] is
    not among the sources).  Section 4.3: process-wide in-memory state with
    [register], which "records metadata keyed by runId; idempotent overwrite",
    and [claimAnnounce], an "atomic compare-and-set" on a "single-acquisition
    flag keyed by runId" that "returns true exactly once per runId, false on
    every subsequent call". *)
Record Registry := {
  reg_runs : gmap string SubagentRun;
  reg_claimed : gset string;
}.

Definition emptyRegistry : Registry :=
  {| reg_runs := ∅; reg_claimed := ∅ |}.

(** Modelled from the spec: [register(run)]. *)
Definition registerSubagentRun (run : SubagentRun) (reg : Registry) : Registry :=
  {| reg_runs := <[run_runId run := run]> (reg_runs reg);
     reg_claimed := reg_claimed reg |}.

(** Modelled from the spec: [claimAnnounce(runId) -> bool]. *)
Definition beginSubagentAnnounce (runId : string) (reg : Registry)
  : bool * Registry :=
  if decide (runId ∈ reg_claimed reg)
  then (false, reg)
  else (true, {| reg_runs := reg_runs reg;
                 reg_claimed := {[runId]} ∪ reg_claimed reg |}).

(** The gate in front of the announce flow, as [execute] has it:
    [if (beginSubagentAnnounce(childRunId)) void runSubagentAnnounceFlow(p)].
    Returns the flows handed to the event loop. *)
Definition announceGate (p : AnnounceParams) (reg : Registry)
  : list AnnounceParams * Registry :=
  let '(claimed, reg') := beginSubagentAnnounce (ap_childRunId p) reg in
  (if claimed then [p] else [], reg').

(** The registry is only touched by synchronous calls, so whatever the
    interleaving of the asynchronous call paths, the registry sees one
    sequence of these operations. *)
Inductive RegistryOp :=
| OpRegister (run : SubagentRun)
| OpClaim (runId : string)
| OpGate (p : AnnounceParams).

Definition opClaims (r : string) (op : RegistryOp) : bool :=
  match op with
  | OpRegister _ => false
  | OpClaim r' => bool_decide (r' = r)
  | OpGate p => bool_decide (ap_childRunId p = r)
  end.

(** Results of the claim invocations for run id [r], in call order. *)
Fixpoint claimResults (r : string) (ops : list RegistryOp) (reg : Registry)
  : list bool :=
  match ops with
  | [] => []
  | OpRegister run :: ops' => claimResults r ops' (registerSubagentRun run reg)
  | OpClaim r' :: ops' =>
      let '(b, reg') := beginSubagentAnnounce r' reg in
      (if bool_decide (r' = r) then [b] else []) ++ claimResults r ops' reg'
  | OpGate p :: ops' =>
      let '(b, reg') := beginSubagentAnnounce (ap_childRunId p) reg in
      (if bool_decide (ap_childRunId p = r) then [b] else [])
        ++ claimResults r ops' reg'
  end.

(** Announce flows started through the gate, in start order. *)
Fixpoint launchedFlows (ops : list RegistryOp) (reg : Registry)
  : list AnnounceParams :=
  match ops with
  | [] => []
  | OpRegister run :: ops' => launchedFlows ops' (registerSubagentRun run reg)
  | OpClaim r' :: ops' => launchedFlows ops' (snd (beginSubagentAnnounce r' reg))
  | OpGate p :: ops' =>
      let '(ps, reg') := announceGate p reg in
      ps ++ launchedFlows ops' reg'
  end.

Definition claimCount (r : string) (ops : list RegistryOp) : nat :=
  length (filter (fun op => opClaims r op = true) ops).

Definition flowsFor (r : string) (ps : list AnnounceParams) : list AnnounceParams :=
  filter (fun p => ap_childRunId p = r) ps.

(** ** Collaborators outside the module *)

(** Pure helpers imported from modules that are not among the sources
    ([routing/session-key], [tools/sessions-helpers], [config],
    [tools/sessions-send-helpers], [node:path]) and the JavaScript built-ins
    [String.prototype.trim] and [Number.prototype.toFixed]. *)

Record ModelCost := {
  cost_input : Q;
  cost_output : Q;
  cost_cacheRead : Q;
  cost_cacheWrite : Q;
}.

Record ModelDefinition := {
  md_id : string;
  md_cost : option ModelCost;
}.

Record Config := {
  cfg_providers : gmap string (list ModelDefinition);
  cfg_sessionStore : option string;
}.

Record Lib := {
  loadConfig : Config;
  resolveMainSessionAlias : Config -> string * string;
  isSubagentSessionKey : string -> bool;
  parseAgentSessionKey : string -> option string;
  normalizeAgentId : option string -> string;
  resolveInternalSessionKey : string -> string -> string -> string;
  resolveDisplaySessionKey : string -> string -> string -> string;
  resolveAgentIdFromSessionKey : string -> string;
  resolveStorePath : option string -> string -> string;
  isAnnounceSkip : string -> bool;
  trim : string -> string;
  toFixed : Q -> nat -> string;
  path_dirname : string -> string;
  path_join : string -> string -> string;
}.

(** The request objects handed to [callGateway]. *)
Inductive GatewayParams :=
| PatchSpawnedBy (key spawnedBy : string)
| PatchModel (key model : string)
| AgentStart (message sessionKey idempotencyKey : string) (deliver : bool)
             (lane extraSystemPrompt : string)
| AgentWait (runId : string) (timeoutMs : Z)
| ChatAbort (sessionKey runId : string)
| SessionsDelete (key : string) (deleteTranscript : bool)
| Send (to message provider : string) (accountId : option string)
       (idempotencyKey : string).

Record GatewayCall := {
  gw_method : string;
  gw_params : GatewayParams;
  gw_timeoutMs : Z;
}.

(** A gateway response, as far as the code reads it: each field is read
    behind a [typeof] test, [None] stands for "absent or of another type".
    Timestamps are integral milliseconds. *)
Record GatewayResponse := {
  resp_runId : option string;
  resp_status : option string;
  resp_error : option string;
  resp_startedAt : option Z;
  resp_endedAt : option Z;
}.

Record AnnounceTarget := {
  target_provider : string;
  target_to : string;
  target_accountId : option string;
}.

Record AgentStepParams := {
  step_sessionKey : string;
  step_message : string;
  step_extraSystemPrompt : string;
  step_timeoutMs : Z;
  step_lane : string;
}.

(** A record of the session store, as far as the usage resolver reads it.
    Token counts are integers; [None] is an absent field. *)
Record SessionEntry := {
  entry_sessionId : option string;
  entry_inputTokens : option Z;
  entry_outputTokens : option Z;
  entry_totalTokens : option Z;
  entry_model : option string;
  entry_modelProvider : option string;
}.

(** Everything observable from outside, with the answer that came back. *)
Inductive Event :=
| EvGateway (call : GatewayCall) (res : Outcome GatewayResponse)
| EvReadLatestAssistantReply (sessionKey : string) (res : Outcome (option string))
| EvResolveAnnounceTarget (sessionKey displayKey : string)
                          (res : Outcome (option AnnounceTarget))
| EvRunAgentStep (p : AgentStepParams) (res : Outcome (option string))
| EvLoadSessionStore (storePath key : string) (res : Outcome (option SessionEntry))
| EvSleep (ms : Z)
| EvRandomUUID (uuid : string).

(** The environment: the gateway, the helper modules that talk to it, the
    session store and the random source.  Each answer may depend on all that
    happened before. *)
Record Env := {
  env_callGateway : list Event -> GatewayCall -> Outcome GatewayResponse;
  env_readLatestAssistantReply : list Event -> string -> Outcome (option string);
  env_resolveAnnounceTarget :
    list Event -> string -> string -> Outcome (option AnnounceTarget);
  env_runAgentStep : list Event -> AgentStepParams -> Outcome (option string);
  env_loadSessionStore :
    list Event -> string -> string -> Outcome (option SessionEntry);
  env_randomUUID : list Event -> string;
}.

Record World := {
  trace : list Event;
  registry : Registry;
  detached : list AnnounceParams;
}.

Definition initialWorld : World :=
  {| trace := []; registry := emptyRegistry; detached := [] |}.

Definition record (ev : Event) (w : World) : World :=
  {| trace := trace w ++ [ev]; registry := registry w; detached := detached w |}.

(** ** The effect monad: environment, world, exceptions *)

Definition M (A : Type) : Type := Env -> World -> Outcome A * World.

Definition ret {A} (a : A) : M A := fun _ w => (Return a, w).

Definition bind {A B} (m : M A) (k : A -> M B) : M B :=
  fun env w =>
    match m env w with
    | (Return a, w') => k a env w'
    | (Raise e, w') => (Raise e, w')
    end.

(** [try { m } catch (err) { handler err }] *)
Definition tryCatch {A} (m : M A) (handler : Thrown -> M A) : M A :=
  fun env w =>
    match m env w with
    | (Return a, w') => (Return a, w')
    | (Raise e, w') => handler e env w'
    end.

(** [try { m } finally { cleanup }] where [cleanup] has no [return]. *)
Definition tryFinally {A} (m : M A) (cleanup : M unit) : M A :=
  fun env w =>
    let '(r, w') := m env w in
    match cleanup env w' with
    | (Return _, w'') => (r, w'')
    | (Raise e, w'') => (Raise e, w'')
    end.

Declare Scope monad_scope.
Delimit Scope monad_scope with monad.
Notation "'let!' x ':=' m 'in' k" := (bind m (fun x => k))
  (at level 10, x name, m at level 100, k at level 200) : monad_scope.
Notation "'do!' m 'in' k" := (bind m (fun _ => k))
  (at level 10, m at level 100, k at level 200) : monad_scope.
Open Scope monad_scope.

Definition callGateway (c : GatewayCall) : M GatewayResponse :=
  fun env w =>
    let r := env_callGateway env (trace w) c in
    (r, record (EvGateway c r) w).

(** The helpers [readLatestAssistantReply], [runAgentStep]
    ([tools/agent-step]) and [resolveAnnounceTarget]
    ([tools/sessions-announce-target]) are not among the sources.  Each of
    their calls is one event, with what it was given and what it answered.
    What such a helper does inside, its own traffic with the gateway
    included (an announce step starts and awaits a run of its own), is part
    of that one event: an [EvGateway] event is a call of [callGateway] made
    by the code of the two modules embedded here. *)
Definition readLatestAssistantReply (sessionKey : string) : M (option string) :=
  fun env w =>
    let r := env_readLatestAssistantReply env (trace w) sessionKey in
    (r, record (EvReadLatestAssistantReply sessionKey r) w).

Definition resolveAnnounceTarget (sessionKey displayKey : string)
  : M (option AnnounceTarget) :=
  fun env w =>
    let r := env_resolveAnnounceTarget env (trace w) sessionKey displayKey in
    (r, record (EvResolveAnnounceTarget sessionKey displayKey r) w).

Definition runAgentStep (p : AgentStepParams) : M (option string) :=
  fun env w =>
    let r := env_runAgentStep env (trace w) p in
    (r, record (EvRunAgentStep p r) w).

Definition loadSessionStore (storePath key : string) : M (option SessionEntry) :=
  fun env w =>
    let r := env_loadSessionStore env (trace w) storePath key in
    (r, record (EvLoadSessionStore storePath key r) w).

(** [await new Promise((resolve) => setTimeout(resolve, ms))] *)
Definition sleep (ms : Z) : M unit :=
  fun _ w => (Return tt, record (EvSleep ms) w).

(** [crypto.randomUUID()] *)
Definition randomUUID : M string :=
  fun env w =>
    let u := env_randomUUID env (trace w) in
    (Return u, record (EvRandomUUID u) w).

Definition withRegistry {A} (f : Registry -> A * Registry) : M A :=
  fun _ w =>
    let '(a, reg') := f (registry w) in
    (Return a, {| trace := trace w; registry := reg'; detached := detached w |}).

(** [void flow(p)]: the flow is handed to the event loop. *)
Definition detach (ps : list AnnounceParams) : M unit :=
  fun _ w =>
    (Return tt, {| trace := trace w; registry := registry w;
                   detached := detached w ++ ps |}).

(** ** Usage resolver ([subagent-announce.ts]) *)

Section UsageResolver.
Variable L : Lib.

(** [formatDurationShort].  For an integral number of milliseconds [v > 0],
    [Math.round(v / 1000)] is [(v + 500) / 1000]. *)
Definition formatDurationShort (valueMs : option Z) : option string :=
  match valueMs with
  | None => None
  | Some v =>
      if v <=? 0 then None
      else
        let totalSeconds := (v + 500) / 1000 in
        let hours := totalSeconds / 3600 in
        let minutes := (totalSeconds mod 3600) / 60 in
        let seconds := totalSeconds mod 60 in
        if 0 <? hours then Some (pretty hours +:+ "h" +:+ pretty minutes +:+ "m")
        else if 0 <? minutes
             then Some (pretty minutes +:+ "m" +:+ pretty seconds +:+ "s")
             else Some (pretty seconds +:+ "s")
  end.

(** [formatTokenCount] *)
Definition formatTokenCount (value : option Z) : string :=
  match value with
  | None => "0"
  | Some v =>
      if v =? 0 then "0"
      else if 1000000 <=? v then toFixed L (v # 1000000) 1 +:+ "m"
      else if 1000 <=? v then toFixed L (v # 1000) 1 +:+ "k"
      else pretty v
  end.

(** [formatUsd] *)
Definition formatUsd (value : option Q) : option string :=
  match value with
  | None => None
  | Some v =>
      if Qle_bool 1 v then Some ("$" +:+ toFixed L v 2)
      else if Qle_bool (1 # 100) v then Some ("$" +:+ toFixed L v 2)
      else Some ("$" +:+ toFixed L v 4)
  end.

(** [resolveModelCost] *)
Definition resolveModelCost (provider model : option string) (config : Config)
  : option ModelCost :=
  let provider := trim L <$> provider in
  let model := trim L <$> model in
  match provider, model with
  | Some p, Some m =>
      if negb (truthy (Some p)) || negb (truthy (Some m)) then None
      else
        let models := default [] (cfg_providers config !! p) in
        match List.find (fun candidate => String.eqb (md_id candidate) m) models with
        | Some entry => md_cost entry
        | None => None
        end
  | _, _ => None
  end.

(** The closure [hasTokens] of [waitForSessionUsage]. *)
Definition hasTokens (entry : option SessionEntry) : bool :=
  match entry with
  | None => false
  | Some e =>
      bool_decide (is_Some (entry_totalTokens e))
      || bool_decide (is_Some (entry_inputTokens e))
      || bool_decide (is_Some (entry_outputTokens e))
  end.

(** The [for (let attempt = 0; attempt < 4; attempt += 1)] loop of
    [waitForSessionUsage], with [remaining] iterations to go. *)
Fixpoint pollSessionUsage (storePath key : string) (remaining : nat)
         (entry : option SessionEntry) : M (option SessionEntry) :=
  match remaining with
  | O => ret entry
  | S n =>
      do! sleep 200 in
      let! entry' := loadSessionStore storePath key in
      if hasTokens entry' then ret entry'
      else pollSessionUsage storePath key n entry'
  end.

(** [waitForSessionUsage] *)
Definition waitForSessionUsage (sessionKey : string)
  : M (option SessionEntry * string) :=
  let cfg := loadConfig L in
  let agentId := resolveAgentIdFromSessionKey L sessionKey in
  let storePath := resolveStorePath L (cfg_sessionStore cfg) agentId in
  let! entry := loadSessionStore storePath sessionKey in
  match entry with
  | None => ret (entry, storePath)
  | Some _ =>
      if hasTokens entry then ret (entry, storePath)
      else
        let! entry' := pollSessionUsage storePath sessionKey 4 entry in
        ret (entry', storePath)
  end.

(** [entry?.totalTokens ?? (both numbers ? input + output : undefined)] *)
Definition resolvedTotal (entry : option SessionEntry) : option Z :=
  match entry ≫= entry_totalTokens with
  | Some t => Some t
  | None =>
      match entry ≫= entry_inputTokens, entry ≫= entry_outputTokens with
      | Some i, Some o => Some (i + o)
      | _, _ => None
      end
  end.

(** The "tokens ..." part of the statistics line. *)
Definition tokensPart (entry : option SessionEntry) : string :=
  let input := entry ≫= entry_inputTokens in
  let output := entry ≫= entry_outputTokens in
  match resolvedTotal entry with
  | Some total =>
      let inputText :=
        match input with Some _ => formatTokenCount input | None => "n/a" end in
      let outputText :=
        match output with Some _ => formatTokenCount output | None => "n/a" end in
      let totalText := formatTokenCount (Some total) in
      "tokens " +:+ totalText +:+ " (in " +:+ inputText +:+ " / out "
        +:+ outputText +:+ ")"
  | None => "tokens n/a"
  end.

(** The pure tail of [buildSubagentStatsLine], from the resolved entry on. *)
Definition statsLineOf (sessionKey : string) (startedAt endedAt : option Z)
           (entry : option SessionEntry) (storePath : string) : string :=
  let cfg := loadConfig L in
  let sessionId := entry ≫= entry_sessionId in
  let transcriptPath :=
    if truthy sessionId && truthy (Some storePath)
    then Some (path_join L (path_dirname L storePath)
                         (default EmptyString sessionId +:+ ".jsonl"))
    else None in
  let input := entry ≫= entry_inputTokens in
  let output := entry ≫= entry_outputTokens in
  let runtimeMs :=
    match startedAt, endedAt with
    | Some s, Some e => Some (Z.max 0 (e - s))
    | _, _ => None
    end in
  let provider := entry ≫= entry_modelProvider in
  let model := entry ≫= entry_model in
  let costConfig := resolveModelCost provider model cfg in
  let cost :=
    match costConfig, input, output with
    | Some c, Some i, Some o =>
        Some ((inject_Z i * cost_input c + inject_Z o * cost_output c)
              / inject_Z 1000000)%Q
    | _, _, _ => None
    end in
  let parts :=
    (["runtime " +:+ default "n/a" (formatDurationShort runtimeMs)]
    ++ [tokensPart entry]
    ++ match formatUsd cost with
       | Some costText => if truthy (Some costText) then ["est " +:+ costText] else []
       | None => []
       end
    ++ ["sessionKey " +:+ sessionKey]
    ++ (if truthy sessionId then ["sessionId " +:+ default EmptyString sessionId] else [])
    ++ match transcriptPath with
       | Some t => if truthy (Some t) then ["transcript " +:+ t] else []
       | None => []
       end)%list in
  "Stats: " +:+ join " • " parts.

(** [buildSubagentStatsLine] *)
Definition buildSubagentStatsLine (sessionKey : string)
           (startedAt endedAt : option Z) : M string :=
  let! usage := waitForSessionUsage sessionKey in
  ret (statsLineOf sessionKey startedAt endedAt (fst usage) (snd usage)).

End UsageResolver.

(** ** Prompts ([subagent-announce.ts]) *)

Definition newline : string := String (ascii_of_nat 10) EmptyString.
Definition dquote : string := String (ascii_of_nat 34) EmptyString.

(** [cond ? text : undefined] for a string [cond] tested for truthiness. *)
Definition whenTruthy (cond : option string) (text : string) : option string :=
  if truthy cond then Some text else None.

(** [buildSubagentSystemPrompt] *)
Definition buildSubagentSystemPrompt
           (requesterSessionKey requesterProvider : option string)
           (childSessionKey : string) (label : option string) : string :=
  join newline (filterBoolean [
    Some "Sub-agent context:";
    whenTruthy label ("Label: " +:+ default EmptyString label);
    whenTruthy requesterSessionKey
      ("Requester session: " +:+ default EmptyString requesterSessionKey +:+ ".");
    whenTruthy requesterProvider
      ("Requester provider: " +:+ default EmptyString requesterProvider +:+ ".");
    Some ("Your session: " +:+ childSessionKey +:+ ".");
    Some "Run the task. Provide a clear final answer (plain text).";
    Some ("After you finish, you may be asked to produce an " +:+ dquote
          +:+ "announce" +:+ dquote
          +:+ " message to post back to the requester chat.")
  ]).

(** [buildSubagentAnnouncePrompt] *)
Definition buildSubagentAnnouncePrompt
           (requesterSessionKey requesterProvider : option string)
           (announceChannel task : string) (subagentReply : option string)
  : string :=
  join newline (filterBoolean [
    Some "Sub-agent announce step:";
    whenTruthy requesterSessionKey
      ("Requester session: " +:+ default EmptyString requesterSessionKey +:+ ".");
    whenTruthy requesterProvider
      ("Requester provider: " +:+ default EmptyString requesterProvider +:+ ".");
    Some ("Post target provider: " +:+ announceChannel +:+ ".");
    Some ("Original task: " +:+ task);
    (if truthy subagentReply
     then Some ("Sub-agent result: " +:+ default EmptyString subagentReply)
     else Some "Sub-agent result: (not available).");
    Some ("Reply exactly " +:+ dquote +:+ "ANNOUNCE_SKIP" +:+ dquote
          +:+ " to stay silent.");
    Some "Any other reply will be posted to the requester chat provider."
  ]).

(** ** Announce flow ([subagent-announce.ts]) *)

Section AnnounceFlow.
Variable L : Lib.

(** [!announceReply || !announceReply.trim() || isAnnounceSkip(announceReply)] *)
Definition suppressed (announceReply : option string) : bool :=
  match announceReply with
  | None => true
  | Some s =>
      negb (truthy (Some s)) || negb (truthy (Some (trim L s)))
      || isAnnounceSkip L s
  end.

Definition sendCall (target : AnnounceTarget) (message idem : string)
  : GatewayCall :=
  {| gw_method := "send";
     gw_params := Send (target_to target) message (target_provider target)
                       (target_accountId target) idem;
     gw_timeoutMs := 10000 |}.

Definition deleteCall (childSessionKey : string) : GatewayCall :=
  {| gw_method := "sessions.delete";
     gw_params := SessionsDelete childSessionKey true;
     gw_timeoutMs := 10000 |}.

Definition announceStep (p : AnnounceParams) (announcePrompt : string)
  : AgentStepParams :=
  {| step_sessionKey := ap_childSessionKey p;
     step_message := "Sub-agent announce step.";
     step_extraSystemPrompt := announcePrompt;
     step_timeoutMs := ap_timeoutMs p;
     step_lane := "nested" |}.

(** The [try] block from the second [if (!reply)] on. *)
Definition announceWithReply (p : AnnounceParams) (reply : option string)
  : M unit :=
  let! reply :=
    (if negb (truthy reply)
     then readLatestAssistantReply (ap_childSessionKey p)
     else ret reply) in
  let! announceTarget :=
    resolveAnnounceTarget (ap_requesterSessionKey p)
                          (ap_requesterDisplayKey p) in
  match announceTarget with
  | None => ret tt
  | Some target =>
      let announcePrompt :=
        buildSubagentAnnouncePrompt (Some (ap_requesterSessionKey p))
          (ap_requesterProvider p) (target_provider target) (ap_task p)
          reply in
      let! announceReply := runAgentStep (announceStep p announcePrompt) in
      if suppressed announceReply then ret tt
      else
        let! statsLine :=
          buildSubagentStatsLine L (ap_childSessionKey p)
                                 (ap_startedAt p) (ap_endedAt p) in
        let trimmed := trim L (default EmptyString announceReply) in
        let message :=
          if truthy (Some statsLine)
          then trimmed +:+ newline +:+ newline +:+ statsLine
          else trimmed in
        let! idem := randomUUID in
        do! callGateway (sendCall target message idem) in
        ret tt
  end.

(** The [try] block of [runSubagentAnnounceFlow]; [ret tt] is [return]. *)
Definition announceTry (p : AnnounceParams) : M unit :=
  let reply := ap_roundOneReply p in
  if negb (truthy reply)
     && negb (bool_decide (ap_waitForCompletion p = Some false))
  then
    let waitMs := Z.min (ap_timeoutMs p) 60000 in
    let! wait :=
      callGateway {| gw_method := "agent.wait";
                     gw_params := AgentWait (ap_childRunId p) waitMs;
                     gw_timeoutMs := waitMs + 2000 |} in
    if negb (bool_decide (resp_status wait = Some "ok")) then ret tt
    else
      let! reply := readLatestAssistantReply (ap_childSessionKey p) in
      announceWithReply p reply
  else announceWithReply p reply.

(** The [finally] block. *)
Definition announceCleanup (p : AnnounceParams) : M unit :=
  if bool_decide (ap_cleanup p = CleanupDelete)
  then tryCatch (do! callGateway (deleteCall (ap_childSessionKey p)) in ret tt)
                (fun _ => ret tt)
  else ret tt.

(** [runSubagentAnnounceFlow] *)
Definition runSubagentAnnounceFlow (p : AnnounceParams) : M unit :=
  tryFinally (tryCatch (announceTry p) (fun _ => ret tt))
             (announceCleanup p).

(** The event loop running detached flows to completion, in start order. *)
Fixpoint runDetached (flows : list AnnounceParams) : M unit :=
  match flows with
  | [] => ret tt
  | p :: rest => do! runSubagentAnnounceFlow p in runDetached rest
  end.

End AnnounceFlow.

(** ** The [sessions_spawn] tool ([tools/sessions-spawn-tool.ts]) *)

(** The options [createSessionsSpawnTool] is created with. *)
Record ToolOpts := {
  agentSessionKey : option string;
  agentProvider : option string;
  sandboxed : option bool;
}.

(** The arguments of [execute].  [arg_task] and [arg_model] are what
    [readStringParam] ([tools/common], not among the sources) hands back for
    ["task"] (required by the parameter schema) and ["model"]; the other
    fields are the raw values the code coerces itself. *)
Record SpawnArgs := {
  arg_task : string;
  arg_label : JsValue;
  arg_model : option string;
  arg_cleanup : JsValue;
  arg_timeoutSeconds : JsValue;
}.

(** The object passed to [jsonResult]; an [undefined] field is [None]. *)
Record SpawnResult := {
  res_status : string;
  res_error : option string;
  res_childSessionKey : option string;
  res_runId : option string;
  res_reply : option string;
  res_modelApplied : option bool;
  res_warning : option string;
}.

(** The coercion of [params.timeoutSeconds]:
    [typeof v === "number" && Number.isFinite(v) ? Math.max(0, Math.floor(v)) : 0] *)
Definition coerceTimeoutSeconds (v : JsValue) : Z :=
  match v with
  | JsNum (JsFinite q) => Z.max 0 (Qfloor q)
  | _ => 0
  end.

(** [params.cleanup === "keep" || params.cleanup === "delete" ? params.cleanup : "keep"] *)
Definition coerceCleanup (v : JsValue) : Cleanup :=
  match v with
  | JsStr s =>
      if String.eqb s "keep" then CleanupKeep
      else if String.eqb s "delete" then CleanupDelete
      else CleanupKeep
  | _ => CleanupKeep
  end.

Section SpawnTool.
Variable L : Lib.

(** [typeof params.label === "string" ? params.label.trim() : the empty string] *)
Definition coerceLabel (v : JsValue) : string :=
  match v with
  | JsStr s => trim L s
  | _ => EmptyString
  end.

Definition forbiddenResult : SpawnResult :=
  {| res_status := "forbidden";
     res_error := Some "sessions_spawn is not allowed from sub-agent sessions";
     res_childSessionKey := None; res_runId := None; res_reply := None;
     res_modelApplied := None; res_warning := None |}.

Definition patchSpawnedByCall (childSessionKey requesterInternalKey : string)
  : GatewayCall :=
  {| gw_method := "sessions.patch";
     gw_params := PatchSpawnedBy childSessionKey requesterInternalKey;
     gw_timeoutMs := 10000 |}.

Definition patchModelCall (childSessionKey model : string) : GatewayCall :=
  {| gw_method := "sessions.patch";
     gw_params := PatchModel childSessionKey model;
     gw_timeoutMs := 10000 |}.

Definition agentCall (task childSessionKey childIdem childSystemPrompt : string)
  : GatewayCall :=
  {| gw_method := "agent";
     gw_params := AgentStart task childSessionKey childIdem false "subagent"
                             childSystemPrompt;
     gw_timeoutMs := 10000 |}.

Definition waitCall (childRunId : string) (timeoutMs : Z) : GatewayCall :=
  {| gw_method := "agent.wait";
     gw_params := AgentWait childRunId timeoutMs;
     gw_timeoutMs := timeoutMs + 2000 |}.

Definition abortCall (childSessionKey childRunId : string) : GatewayCall :=
  {| gw_method := "chat.abort";
     gw_params := ChatAbort childSessionKey childRunId;
     gw_timeoutMs := 5000 |}.

(** [messageText.includes("invalid model") || messageText.includes("model not allowed")] *)
Definition recoverable (messageText : string) : bool :=
  includes messageText "invalid model"
  || includes messageText "model not allowed".

(** The [if (model) { try { patch } catch { ... } }] block: either the
    early [return] of an error result, or the values of [modelApplied] and
    [modelWarning] the code goes on with. *)
Definition applyModelOverride (model : option string) (childSessionKey : string)
  : M (SpawnResult + bool * option string) :=
  if truthy model then
    tryCatch
      (do! callGateway (patchModelCall childSessionKey (default EmptyString model)) in
       ret (inr (true, None)))
      (fun err =>
         let messageText := messageTextOf err in
         if negb (recoverable messageText)
         then ret (inl {| res_status := "error";
                          res_error := Some messageText;
                          res_childSessionKey := Some childSessionKey;
                          res_runId := None; res_reply := None;
                          res_modelApplied := None; res_warning := None |})
         else ret (inr (false, Some messageText)))
  else ret (inr (false, None)).

(** The [try { agent } catch] block: the early [return] of an error result,
    or the run id. *)
Definition startRun (task childSessionKey childIdem childSystemPrompt : string)
  : M (SpawnResult + string) :=
  tryCatch
    (let! response :=
       callGateway (agentCall task childSessionKey childIdem childSystemPrompt) in
     ret (inr (if truthy (resp_runId response)
               then default EmptyString (resp_runId response)
               else childIdem)))
    (fun err =>
       ret (inl {| res_status := "error";
                   res_error := Some (messageTextOf err);
                   res_childSessionKey := Some childSessionKey;
                   res_runId := Some childIdem; res_reply := None;
                   res_modelApplied := None; res_warning := None |})).

(** The [try { agent.wait } catch] block. *)
Definition waitRun (childSessionKey childRunId : string) (timeoutMs : Z)
  : M (SpawnResult + GatewayResponse) :=
  tryCatch
    (let! wait := callGateway (waitCall childRunId timeoutMs) in
     ret (inr wait))
    (fun err =>
       let messageText := messageTextOf err in
       ret (inl {| res_status :=
                     if includes messageText "gateway timeout"
                     then "timeout" else "error";
                   res_error := Some messageText;
                   res_childSessionKey := Some childSessionKey;
                   res_runId := Some childRunId; res_reply := None;
                   res_modelApplied := None; res_warning := None |})).

(** The part of [execute] after the run was registered.  [timeoutMs] and
    the transport timeout [timeoutMs + 2000] are the exact numbers.  The
    JavaScript numbers are these as long as [timeoutSeconds * 1000 + 2000]
    does not exceed [2^53]; above that the code sends the nearest doubles.
    What is stated about the two numbers is stated under this bound. *)
Definition awaitRun (opts : ToolOpts) (task : string) (cleanup : Cleanup)
           (timeoutSeconds : Z) (model : option string)
           (modelApplied : bool) (modelWarning : option string)
           (requesterInternalKey requesterDisplayKey : string)
           (childSessionKey childRunId : string) : M SpawnResult :=
  let timeoutMs := timeoutSeconds * 1000 in
  let modelAppliedField := if truthy model then Some modelApplied else None in
  if timeoutSeconds =? 0 then
    ret {| res_status := "accepted"; res_error := None;
           res_childSessionKey := Some childSessionKey;
           res_runId := Some childRunId; res_reply := None;
           res_modelApplied := modelAppliedField;
           res_warning := modelWarning |}
  else
    let! waited := waitRun childSessionKey childRunId timeoutMs in
    match waited with
    | inl result => ret result
    | inr wait =>
        let waitStatus := resp_status wait in
        let waitError := resp_error wait in
        if bool_decide (waitStatus = Some "timeout") then
          do! tryCatch
                (do! callGateway (abortCall childSessionKey childRunId) in
                 ret tt)
                (fun _ => ret tt) in
          ret {| res_status := "timeout"; res_error := waitError;
                 res_childSessionKey := Some childSessionKey;
                 res_runId := Some childRunId; res_reply := None;
                 res_modelApplied := modelAppliedField;
                 res_warning := modelWarning |}
        else if bool_decide (waitStatus = Some "error") then
          ret {| res_status := "error";
                 res_error := Some (default "agent error" waitError);
                 res_childSessionKey := Some childSessionKey;
                 res_runId := Some childRunId; res_reply := None;
                 res_modelApplied := modelAppliedField;
                 res_warning := modelWarning |}
        else
          let! replyText := readLatestAssistantReply childSessionKey in
          let! launched :=
            withRegistry (announceGate
              {| ap_childSessionKey := childSessionKey;
                 ap_childRunId := childRunId;
                 ap_requesterSessionKey := requesterInternalKey;
                 ap_requesterProvider := agentProvider opts;
                 ap_requesterDisplayKey := requesterDisplayKey;
                 ap_task := task;
                 ap_timeoutMs := 30000;
                 ap_cleanup := cleanup;
                 ap_roundOneReply := replyText;
                 ap_waitForCompletion := None;
                 ap_startedAt := resp_startedAt wait;
                 ap_endedAt := resp_endedAt wait |}) in
          do! detach launched in
          ret {| res_status := "ok"; res_error := None;
                 res_childSessionKey := Some childSessionKey;
                 res_runId := Some childRunId; res_reply := replyText;
                 res_modelApplied := modelAppliedField;
                 res_warning := modelWarning |}
    end.

(** [createSessionsSpawnTool(opts).execute(_toolCallId, args)] *)
Definition execute (opts : ToolOpts) (args : SpawnArgs) : M SpawnResult :=
  let task := arg_task args in
  let label := coerceLabel (arg_label args) in
  let model := arg_model args in
  let cleanup := coerceCleanup (arg_cleanup args) in
  let timeoutSeconds := coerceTimeoutSeconds (arg_timeoutSeconds args) in
  let cfg := loadConfig L in
  let mainKey := fst (resolveMainSessionAlias L cfg) in
  let alias := snd (resolveMainSessionAlias L cfg) in
  let requesterSessionKey := agentSessionKey opts in
  if match requesterSessionKey with
     | Some key => isSubagentSessionKey L key
     | None => false
     end
  then ret forbiddenResult
  else
    let requesterInternalKey :=
      if truthy requesterSessionKey
      then resolveInternalSessionKey L (default EmptyString requesterSessionKey)
                                     alias mainKey
      else alias in
    let requesterDisplayKey :=
      resolveDisplaySessionKey L requesterInternalKey alias mainKey in
    let requesterAgentId :=
      normalizeAgentId L (parseAgentSessionKey L requesterInternalKey) in
    let! uuid := randomUUID in
    let childSessionKey :=
      "agent:" +:+ requesterAgentId +:+ ":subagent:" +:+ uuid in
    do! (if bool_decide (sandboxed opts = Some true)
         then tryCatch
                (do! callGateway
                       (patchSpawnedByCall childSessionKey requesterInternalKey) in
                 ret tt)
                (fun _ => ret tt)
         else ret tt) in
    let! patched := applyModelOverride model childSessionKey in
    match patched with
    | inl result => ret result
    | inr (modelApplied, modelWarning) =>
        let childSystemPrompt :=
          buildSubagentSystemPrompt requesterSessionKey (agentProvider opts)
            childSessionKey (if truthy (Some label) then Some label else None) in
        let! childIdem := randomUUID in
        let! started :=
          startRun task childSessionKey childIdem childSystemPrompt in
        match started with
        | inl result => ret result
        | inr childRunId =>
            do! withRegistry (fun reg =>
                  (tt, registerSubagentRun
                         {| run_runId := childRunId;
                            run_childSessionKey := childSessionKey;
                            run_requesterSessionKey := requesterInternalKey;
                            run_requesterProvider := agentProvider opts;
                            run_requesterDisplayKey := requesterDisplayKey;
                            run_task := task;
                            run_cleanup := cleanup |} reg)) in
            awaitRun opts task cleanup timeoutSeconds model modelApplied
                     modelWarning requesterInternalKey requesterDisplayKey
                     childSessionKey childRunId
        end
    end.

(** One call of the tool followed by the event loop running, to
    completion, the announce flows that this call detached.  Flows that
    were pending before the call stay pending. *)
Definition spawnAndSettle (opts : ToolOpts) (args : SpawnArgs)
  : M SpawnResult :=
  fun env w =>
    let '(r, w1) :=
      execute opts args env
        {| trace := trace w; registry := registry w; detached := [] |} in
    let '(_, w2) :=
      runDetached L (detached w1) env
        {| trace := trace w1; registry := registry w1; detached := [] |} in
    (r, {| trace := trace w2; registry := registry w2;
           detached := detached w |}).

End SpawnTool.

(** ** Observations on traces *)

(** The events a computation added when it took the world from [w] to [w']. *)
Definition eventsSince (w w' : World) : list Event :=
  drop (length (trace w)) (trace w').

Definition gatewayCallOf (ev : Event) : option GatewayCall :=
  match ev with
  | EvGateway call _ => Some call
  | _ => None
  end.

(** The gateway requests among some events, in order: the calls of
    [callGateway] made by the embedded code itself, not those made inside
    the helpers. *)
Definition gatewayCalls (evs : list Event) : list GatewayCall :=
  omap gatewayCallOf evs.

(** The gateway methods of these requests, in order. *)
Definition methodsCalled (evs : list Event) : list string :=
  gw_method <$> gatewayCalls evs.

(** The delays slept through, in order. *)
Definition sleeps (evs : list Event) : list Z :=
  omap (fun ev => match ev with EvSleep ms => Some ms | _ => None end) evs.

Definition isStoreRead (ev : Event) : bool :=
  match ev with
  | EvLoadSessionStore _ _ _ => true
  | _ => false
  end.

(** The number of session-store reads among some events. *)
Definition storeReads (evs : list Event) : nat :=
  length (List.filter isStoreRead evs).

(** ** Stand-ins for running the model

    Concrete collaborators in the manner of the mocks of
    [clawdbot-tools.subagents.test.ts]: a configuration with main key
    ["main"], a gateway that accepts runs as ["run-1"], ["run-2"], ..., and
    scripted answers for the calls a scenario is about. *)

Module Stub.

Definition isSpace (c : ascii) : bool :=
  match N_of_ascii c with
  | 9%N | 10%N | 11%N | 12%N | 13%N | 32%N => true
  | _ => false
  end.

Fixpoint trimStart (s : string) : string :=
  match s with
  | EmptyString => EmptyString
  | String c rest => if isSpace c then trimStart rest else s
  end.

Fixpoint trimEnd (s : string) : string :=
  match s with
  | EmptyString => EmptyString
  | String c rest =>
      match trimEnd rest with
      | EmptyString => if isSpace c then EmptyString else String c EmptyString
      | rest' => String c rest'
      end
  end.

(** [trim] on ASCII white space. *)
Definition asciiTrim (s : string) : string := trimEnd (trimStart s).

Fixpoint zeros (n : nat) : string :=
  match n with
  | O => EmptyString
  | S n' => String "0" (zeros n')
  end.

(** [toFixed] on exact rationals, rounding half away from zero. *)
Definition decimalToFixed (q : Q) (digits : nat) : string :=
  let scale := 10 ^ Z.of_nat digits in
  let n := Qfloor (Qabs q * inject_Z scale + (1 # 2)) in
  let fraction := pretty (n mod scale) in
  (if Qle_bool 0 q then EmptyString else "-")
    +:+ pretty (n / scale)
    +:+ match digits with
        | O => EmptyString
        | _ => "." +:+ zeros (digits - String.length fraction) +:+ fraction
        end.

Definition lib : Lib :=
  {| loadConfig := {| cfg_providers := ∅; cfg_sessionStore := None |};
     resolveMainSessionAlias := fun _ => ("main", "main");
     isSubagentSessionKey := fun key => includes key "subagent:";
     parseAgentSessionKey := fun _ => None;
     normalizeAgentId := fun id => default "main" id;
     resolveInternalSessionKey := fun key _ _ => key;
     resolveDisplaySessionKey := fun key _ _ => key;
     resolveAgentIdFromSessionKey := fun _ => "main";
     resolveStorePath := fun _ agentId =>
       "/state/agents/" +:+ agentId +:+ "/sessions/sessions.json";
     isAnnounceSkip := fun text => String.eqb (asciiTrim text) "ANNOUNCE_SKIP";
     trim := asciiTrim;
     toFixed := decimalToFixed;
     path_dirname := fun _ => "/state/agents/main/sessions";
     path_join := fun dir file => dir +:+ "/" +:+ file |}.

Definition emptyResponse : GatewayResponse :=
  {| resp_runId := None; resp_status := None; resp_error := None;
     resp_startedAt := None; resp_endedAt := None |}.

Definition agentCallCount (history : list Event) : nat :=
  length (List.filter (String.eqb "agent") (methodsCalled history)).

(** The gateway of the tests, with scripted answers to [sessions.patch]
    and [agent.wait]. *)
Definition gateway (patch wait : Outcome GatewayResponse)
           (history : list Event) (call : GatewayCall)
  : Outcome GatewayResponse :=
  if String.eqb (gw_method call) "sessions.patch" then patch
  else if String.eqb (gw_method call) "agent" then
    Return {| resp_runId := Some ("run-" +:+ pretty (S (agentCallCount history)));
              resp_status := Some "accepted"; resp_error := None;
              resp_startedAt := None; resp_endedAt := None |}
  else if String.eqb (gw_method call) "agent.wait" then wait
  else Return emptyResponse.

Definition waitOk : Outcome GatewayResponse :=
  Return {| resp_runId := None; resp_status := Some "ok"; resp_error := None;
            resp_startedAt := Some 1000; resp_endedAt := Some 3500 |}.

Definition entryWithoutTokens : SessionEntry :=
  {| entry_sessionId := Some "sess-1"; entry_inputTokens := None;
     entry_outputTokens := None; entry_totalTokens := None;
     entry_model := None; entry_modelProvider := None |}.

Definition entryWithTokens : SessionEntry :=
  {| entry_sessionId := Some "sess-1"; entry_inputTokens := Some 1200;
     entry_outputTokens := Some 34; entry_totalTokens := Some 1234;
     entry_model := None; entry_modelProvider := None |}.

(** A store in which the token counts of the entry appear at the read
    number [appearsAt] (counting from 0). *)
Definition storeSequence (appearsAt : nat) (read : nat) : option SessionEntry :=
  if (read <? appearsAt)%nat then Some entryWithoutTokens
  else Some entryWithTokens.

Definition env (patch wait : Outcome GatewayResponse)
           (announceReply : option string) (appearsAt : nat) : Env :=
  {| env_callGateway := gateway patch wait;
     env_readLatestAssistantReply := fun _ _ => Return (Some "result");
     env_resolveAnnounceTarget := fun _ _ _ =>
       Return (Some {| target_provider := "discord";
                       target_to := "channel:req";
                       target_accountId := None |});
     env_runAgentStep := fun _ _ => Return announceReply;
     env_loadSessionStore := fun history _ _ =>
       Return (storeSequence appearsAt (storeReads history));
     env_randomUUID := fun history =>
       "uuid-" +:+ pretty (length history) |}.

(** The scenario of the first test: everything succeeds. *)
Definition happyEnv : Env :=
  env (Return emptyResponse) waitOk (Some "announce now") 2.


(** The scenario of the last test: the model patch is refused. *)
Definition badModelEnv : Env :=
  env (Raise (ThrownError "invalid model: bad-model")) waitOk
      (Some "ANNOUNCE_SKIP") 2.

(** [agent.wait] answers with status ["timeout"]. *)
Definition waitTimeoutEnv : Env :=
  env (Return emptyResponse)
      (Return {| resp_runId := None; resp_status := Some "timeout";
                 resp_error := None; resp_startedAt := None;
                 resp_endedAt := None |})
      (Some "announce now") 2.


(** The model patch is refused and the [agent.wait] call itself fails. *)
Definition badModelGatewayTimeoutEnv : Env :=
  env (Raise (ThrownError "invalid model: bad-model"))
      (Raise (ThrownError "gateway timeout after 3000ms"))
      (Some "announce now") 2.

Definition opts (requester : string) : ToolOpts :=
  {| agentSessionKey := Some requester;
     agentProvider := Some "discord";
     sandboxed := None |}.

Definition args (model : option string) (cleanup : string)
           (timeoutSeconds : JsValue) : SpawnArgs :=
  {| arg_task := "do thing"; arg_label := JsUndefined; arg_model := model;
     arg_cleanup := JsStr cleanup; arg_timeoutSeconds := timeoutSeconds |}.

Definition announceParams (cleanup : Cleanup) : AnnounceParams :=
  {| ap_childSessionKey := "agent:main:subagent:uuid-0";
     ap_childRunId := "run-1";
     ap_requesterSessionKey := "discord:group:req";
     ap_requesterProvider := Some "discord";
     ap_requesterDisplayKey := "discord:group:req";
     ap_task := "do thing";
     ap_timeoutMs := 30000;
     ap_cleanup := cleanup;
     ap_roundOneReply := Some "result";
     ap_waitForCompletion := None;
     ap_startedAt := Some 1000;
     ap_endedAt := Some 3500 |}.

End Stub.

(** ** Vocabulary of the properties *)

(** The arguments [args] with [timeoutSeconds] replaced by [v]. *)
Definition setTimeoutSeconds (args : SpawnArgs) (v : JsValue) : SpawnArgs :=
  {| arg_task := arg_task args; arg_label := arg_label args;
     arg_model := arg_model args; arg_cleanup := arg_cleanup args;
     arg_timeoutSeconds := v |}.

Definition clearDetached (w : World) : World :=
  {| trace := trace w; registry := registry w; detached := [] |}.

(** [wp m env w Q]: running [m] from world [w] appends some events [evs] to
    the trace, and the outcome, these events and the final world satisfy [Q]. *)
Definition wp {A} (m : M A) (env : Env) (w : World)
           (Q : Outcome A -> list Event -> World -> Prop) : Prop :=
  exists evs, trace (snd (m env w)) = trace w ++ evs
              /\ Q (fst (m env w)) evs (snd (m env w)).

(** The events of the usage resolver: store reads and sleeps. *)
Definition isUsageEvent (ev : Event) : Prop :=
  match ev with
  | EvLoadSessionStore _ _ _ | EvSleep _ => True
  | _ => False
  end.

(** The gateway methods an announce flow can invoke. *)
Definition flowMethods : list string :=
  ["agent.wait"; "send"; "sessions.delete"].



(** ** Further stand-ins

    Scenarios next to those of the test-suite: a configuration that prices
    a model, a store whose entry has its token counts from the first read
    on, a requester without announce target, and a flow started without a
    first reply. *)

Module Scenario.

Definition pricedConfig : Config :=
  {| cfg_providers :=
       {[ "anthropic" :=
            [ {| md_id := "claude-haiku-4-5"; md_cost := None |};
              {| md_id := "claude-opus-4-5";
                 md_cost := Some {| cost_input := 15; cost_output := 75;
                                    cost_cacheRead := 3 # 2;
                                    cost_cacheWrite := 75 # 4 |} |} ] ]};
     cfg_sessionStore := None |}.

Definition tokensReadyEnv : Env :=
  Stub.env (Return Stub.emptyResponse) Stub.waitOk (Some "announce now") 0.

Definition noTargetEnv : Env :=
  {| env_callGateway := env_callGateway Stub.happyEnv;
     env_readLatestAssistantReply := env_readLatestAssistantReply Stub.happyEnv;
     env_resolveAnnounceTarget := fun _ _ _ => Return None;
     env_runAgentStep := env_runAgentStep Stub.happyEnv;
     env_loadSessionStore := env_loadSessionStore Stub.happyEnv;
     env_randomUUID := env_randomUUID Stub.happyEnv |}.

(** A store in which the entry itself shows up, token counts included,
    at the read number [appearsAt]; before that there is no entry. *)
Definition lateEntry (appearsAt : nat) (read : nat) : option SessionEntry :=
  if (read <? appearsAt)%nat then None else Some Stub.entryWithTokens.

Definition lateEntryEnv : Env :=
  {| env_callGateway := env_callGateway Stub.happyEnv;
     env_readLatestAssistantReply := env_readLatestAssistantReply Stub.happyEnv;
     env_resolveAnnounceTarget := env_resolveAnnounceTarget Stub.happyEnv;
     env_runAgentStep := env_runAgentStep Stub.happyEnv;
     env_loadSessionStore := fun history _ _ =>
       Return (lateEntry 2 (storeReads history));
     env_randomUUID := env_randomUUID Stub.happyEnv |}.

(** An entry with input and output counts and no stored total. *)
Definition entryWithoutTotal : SessionEntry :=
  {| entry_sessionId := Some "sess-1"; entry_inputTokens := Some 12;
     entry_outputTokens := Some 34; entry_totalTokens := None;
     entry_model := None; entry_modelProvider := None |}.

(** A store whose entry is there from the start and gets its input and
    output counts at the read number [appearsAt]. *)
Definition lateCounts (appearsAt : nat) (read : nat) : option SessionEntry :=
  if (read <? appearsAt)%nat then Some Stub.entryWithoutTokens
  else Some entryWithoutTotal.

Definition lateCountsEnv : Env :=
  {| env_callGateway := env_callGateway Stub.happyEnv;
     env_readLatestAssistantReply := env_readLatestAssistantReply Stub.happyEnv;
     env_resolveAnnounceTarget := env_resolveAnnounceTarget Stub.happyEnv;
     env_runAgentStep := env_runAgentStep Stub.happyEnv;
     env_loadSessionStore := fun history _ _ =>
       Return (lateCounts 2 (storeReads history));
     env_randomUUID := env_randomUUID Stub.happyEnv |}.


End Scenario.

(** ** Vocabulary of the further properties *)

(** The gateway requests of one method among some events, in order. *)
Definition callsOf (method : string) (evs : list Event) : list GatewayCall :=
  List.filter (fun call => String.eqb (gw_method call) method) (gatewayCalls evs).

(** The steps of a computation, by name: a gateway call of the embedded
    code by its method, a helper by its name.  The reads of the session
    store and the sleeps between them, whose number depends on the store,
    are left out. *)
Definition stepOf (ev : Event) : option string :=
  match ev with
  | EvGateway call _ => Some (gw_method call)
  | EvReadLatestAssistantReply _ _ => Some "readLatestAssistantReply"
  | EvResolveAnnounceTarget _ _ _ => Some "resolveAnnounceTarget"
  | EvRunAgentStep _ _ => Some "runAgentStep"
  | EvRandomUUID _ => Some "randomUUID"
  | EvLoadSessionStore _ _ _ | EvSleep _ => None
  end.

Definition stepsOf (evs : list Event) : list string := omap stepOf evs.

(** The steps of an announce flow, in the order of the code. *)
Definition flowSteps : list string :=
  ["agent.wait"; "readLatestAssistantReply"; "readLatestAssistantReply";
   "resolveAnnounceTarget"; "runAgentStep"; "randomUUID"; "send";
   "sessions.delete"].

(** The events of a usage resolver that read the store [j + 1] times: the
    first read, then [j] times a sleep of 200 ms and a read. *)
Definition pollingEvents (storePath key : string)
           (answers : nat -> option SessionEntry) (j : nat) : list Event :=
  EvLoadSessionStore storePath key (Return (answers 0%nat))
  :: flat_map (fun i => [EvSleep 200;
                         EvLoadSessionStore storePath key (Return (answers (S i)))])
              (List.seq 0 j).

(** The values [execute] computes before its first effect, and the records
    it builds from them, as functions of what they depend on. *)
Section SpawnVocabulary.
Variable L : Lib.

(** The guard of the early ["forbidden"] return. *)
Definition requesterIsSubagent (opts : ToolOpts) : bool :=
  match agentSessionKey opts with
  | Some key => isSubagentSessionKey L key
  | None => false
  end.

(** [requesterInternalKey] *)
Definition requesterInternalKeyOf (opts : ToolOpts) : string :=
  let cfg := loadConfig L in
  let mainKey := fst (resolveMainSessionAlias L cfg) in
  let alias := snd (resolveMainSessionAlias L cfg) in
  if truthy (agentSessionKey opts)
  then resolveInternalSessionKey L (default EmptyString (agentSessionKey opts))
                                 alias mainKey
  else alias.

(** [requesterDisplayKey] *)
Definition requesterDisplayKeyOf (opts : ToolOpts) : string :=
  let cfg := loadConfig L in
  let mainKey := fst (resolveMainSessionAlias L cfg) in
  let alias := snd (resolveMainSessionAlias L cfg) in
  resolveDisplaySessionKey L (requesterInternalKeyOf opts) alias mainKey.

(** [childSessionKey], given the UUID drawn for it. *)
Definition childSessionKeyOf (opts : ToolOpts) (uuid : string) : string :=
  "agent:"
    +:+ normalizeAgentId L (parseAgentSessionKey L (requesterInternalKeyOf opts))
    +:+ ":subagent:" +:+ uuid.

(** [childSystemPrompt] *)
Definition childSystemPromptOf (opts : ToolOpts) (args : SpawnArgs)
           (childSessionKey : string) : string :=
  let label := coerceLabel L (arg_label args) in
  buildSubagentSystemPrompt (agentSessionKey opts) (agentProvider opts)
    childSessionKey (if truthy (Some label) then Some label else None).

(** [childRunId] after the [agent] call answered: the run id of the
    response when it is a non-empty string, the idempotency key otherwise. *)
Definition startedRunId (response : GatewayResponse) (childIdem : string)
  : string :=
  if truthy (resp_runId response)
  then default EmptyString (resp_runId response)
  else childIdem.

(** The record handed to [registerSubagentRun]. *)
Definition registeredRun (opts : ToolOpts) (args : SpawnArgs)
           (childSessionKey childRunId : string) : SubagentRun :=
  {| run_runId := childRunId;
     run_childSessionKey := childSessionKey;
     run_requesterSessionKey := requesterInternalKeyOf opts;
     run_requesterProvider := agentProvider opts;
     run_requesterDisplayKey := requesterDisplayKeyOf opts;
     run_task := arg_task args;
     run_cleanup := coerceCleanup (arg_cleanup args) |}.

(** The record handed to [runSubagentAnnounceFlow]. *)
Definition announcedFlow (opts : ToolOpts) (args : SpawnArgs)
           (childSessionKey childRunId : string) (replyText : option string)
           (wait : GatewayResponse) : AnnounceParams :=
  {| ap_childSessionKey := childSessionKey;
     ap_childRunId := childRunId;
     ap_requesterSessionKey := requesterInternalKeyOf opts;
     ap_requesterProvider := agentProvider opts;
     ap_requesterDisplayKey := requesterDisplayKeyOf opts;
     ap_task := arg_task args;
     ap_timeoutMs := 30000;
     ap_cleanup := coerceCleanup (arg_cleanup args);
     ap_roundOneReply := replyText;
     ap_waitForCompletion := None;
     ap_startedAt := resp_startedAt wait;
     ap_endedAt := resp_endedAt wait |}.

(** What [execute] guarantees around its [agent] call: either no such
    call was made, nothing was registered or detached and the result is a
    refusal or an error without run id; or the events split around the one
    [agent] call, and its outcome decides what was registered and which
    run id the result carries. *)
Definition aroundAgentCall (opts : ToolOpts) (args : SpawnArgs) (w : World)
           (out : Outcome SpawnResult) (evs : list Event) (w' : World) : Prop :=
  (callsOf "agent" evs = []
   ∧ registry w' = registry w ∧ detached w' = detached w
   ∧ ∃ r, out = Return r
          ∧ (res_status r = "forbidden" ∨ res_status r = "error")
          ∧ res_runId r = None)
  ∨ ∃ u idem pre res post,
      let key := childSessionKeyOf opts u in
      let call := agentCall (arg_task args) key idem
                            (childSystemPromptOf opts args key) in
      evs = (EvRandomUUID u :: pre ++ [EvRandomUUID idem])
              ++ EvGateway call res :: post
      ∧ callsOf "agent" pre = [] ∧ callsOf "agent" post = []
      ∧ match res with
        | Return response =>
            let runId := startedRunId response idem in
            reg_runs (registry w')
            = reg_runs (registerSubagentRun
                          (registeredRun opts args key runId) (registry w))
            ∧ match out with
              | Return r => res_childSessionKey r = Some key
                            ∧ res_runId r = Some runId
              | Raise _ => True
              end
        | Raise e =>
            post = []
            ∧ registry w' = registry w
            ∧ detached w' = detached w
            ∧ out = Return {| res_status := "error";
                              res_error := Some (messageTextOf e);
                              res_childSessionKey := Some key;
                              res_runId := Some idem;
                              res_reply := None;
                              res_modelApplied := None;
                              res_warning := None |}
        end.

(** What the answer to the [agent.wait] call [wres], for run [runId] of the
    child session [key], leaves [execute] to do: the events [post] after
    the call, the outcome and the final world, from the registry [reg] as
    it was before the call of the tool. *)
Definition waitOutcome (opts : ToolOpts) (args : SpawnArgs)
           (key runId : string) (wres : Outcome GatewayResponse)
           (w : World) (post : list Event)
           (out : Outcome SpawnResult) (w' : World) : Prop :=
  let reg1 := registerSubagentRun (registeredRun opts args key runId)
                                  (registry w) in
  match wres with
  | Raise e =>
      post = [] ∧ detached w' = detached w ∧ registry w' = reg1
      ∧ ∃ r, out = Return r
             ∧ res_status r = (if includes (messageTextOf e) "gateway timeout"
                               then "timeout" else "error")
             ∧ res_error r = Some (messageTextOf e)
             ∧ res_childSessionKey r = Some key ∧ res_runId r = Some runId
  | Return wait =>
      if bool_decide (resp_status wait = Some "timeout") then
        (∃ ares, post = [EvGateway (abortCall key runId) ares])
        ∧ detached w' = detached w ∧ registry w' = reg1
        ∧ ∃ r, out = Return r
               ∧ res_status r = "timeout" ∧ res_error r = resp_error wait
               ∧ res_childSessionKey r = Some key ∧ res_runId r = Some runId
      else if bool_decide (resp_status wait = Some "error") then
        post = [] ∧ detached w' = detached w ∧ registry w' = reg1
        ∧ ∃ r, out = Return r
               ∧ res_status r = "error"
               ∧ res_error r = Some (default "agent error" (resp_error wait))
               ∧ res_childSessionKey r = Some key ∧ res_runId r = Some runId
      else
        ∃ rres, post = [EvReadLatestAssistantReply key rres]
          ∧ match rres with
            | Raise e =>
                out = Raise e
                ∧ detached w' = detached w ∧ registry w' = reg1
            | Return replyText =>
                let flow := announcedFlow opts args key runId replyText wait in
                detached w' = detached w ++ fst (announceGate flow reg1)
                ∧ registry w' = snd (announceGate flow reg1)
                ∧ ∃ r, out = Return r
                       ∧ res_status r = "ok" ∧ res_error r = None
                       ∧ res_reply r = replyText
                       ∧ res_childSessionKey r = Some key
                       ∧ res_runId r = Some runId
            end
  end.

(** What [execute] guarantees around its [agent.wait] call: either no such
    call was made, or the events split around the one call, made for a
    positive timeout, and its answer decides the rest. *)
Definition aroundWaitCall (opts : ToolOpts) (args : SpawnArgs) (w : World)
           (out : Outcome SpawnResult) (evs : list Event) (w' : World) : Prop :=
  callsOf "agent.wait" evs = []
  ∨ ∃ u runId pre wres post,
      let timeoutSeconds := coerceTimeoutSeconds (arg_timeoutSeconds args) in
      evs = (EvRandomUUID u :: pre)
              ++ EvGateway (waitCall runId (timeoutSeconds * 1000)) wres :: post
      ∧ callsOf "agent.wait" pre = [] ∧ callsOf "agent.wait" post = []
      ∧ 0 < timeoutSeconds
      ∧ waitOutcome opts args (childSessionKeyOf opts u) runId wres w post
                    out w'.

End SpawnVocabulary.

(** * Properties *)

(** ** Reasoning about computations *)

Lemma eventsSince_app w w' evs :
  trace w' = trace w ++ evs → eventsSince w w' = evs.
Proof. unfold eventsSince. intros ->. apply drop_app_length. Qed.

Lemma wp_elim {A} (m : M A) env w Q out w' :
  wp m env w Q → m env w = (out, w') → Q out (eventsSince w w') w'.
Proof.
  unfold wp. intros (evs & Ht & HQ) E. rewrite E in *. simpl in *.
  by rewrite (eventsSince_app _ _ _ Ht).
Qed.

Lemma wp_mono {A} (m : M A) env w (Q Q' : Outcome A → list Event → World → Prop) :
  wp m env w Q → (∀ o evs w', Q o evs w' → Q' o evs w') → wp m env w Q'.
Proof. unfold wp. intros (evs & Ht & HQ) H. eauto. Qed.

Lemma wp_ret {A} (a : A) env w Q : Q (Return a) [] w → wp (ret a) env w Q.
Proof. intros H. exists []. simpl. by rewrite app_nil_r. Qed.

Lemma wp_bind {A B} (m : M A) (k : A → M B) env w Q :
  wp m env w (λ o evs1 w1,
    match o with
    | Return a => wp (k a) env w1 (λ o2 evs2 w2, Q o2 (evs1 ++ evs2) w2)
    | Raise e => Q (Raise e) evs1 w1
    end) →
  wp (bind m k) env w Q.
Proof.
  unfold wp, bind. intros (evs1 & Ht1 & H).
  destruct (m env w) as [[a|e] w1]; simpl in *.
  - destruct H as (evs2 & Ht2 & H). exists (evs1 ++ evs2).
    by rewrite Ht2, Ht1, <- app_assoc.
  - eauto.
Qed.

Lemma wp_tryCatch {A} (m : M A) (h : Thrown → M A) env w Q :
  wp m env w (λ o evs1 w1,
    match o with
    | Return a => Q (Return a) evs1 w1
    | Raise e => wp (h e) env w1 (λ o2 evs2 w2, Q o2 (evs1 ++ evs2) w2)
    end) →
  wp (tryCatch m h) env w Q.
Proof.
  unfold wp, tryCatch. intros (evs1 & Ht1 & H).
  destruct (m env w) as [[a|e] w1]; simpl in *.
  - eauto.
  - destruct H as (evs2 & Ht2 & H). exists (evs1 ++ evs2).
    by rewrite Ht2, Ht1, <- app_assoc.
Qed.

Lemma wp_tryFinally {A} (m : M A) (c : M unit) env w Q :
  wp m env w (λ o evs1 w1,
    wp c env w1 (λ oc evs2 w2,
      match oc with
      | Return _ => Q o (evs1 ++ evs2) w2
      | Raise e => Q (Raise e) (evs1 ++ evs2) w2
      end)) →
  wp (tryFinally m c) env w Q.
Proof.
  unfold wp, tryFinally. intros (evs1 & Ht1 & evs2 & Ht2 & H).
  destruct (m env w) as [o w1]. simpl in *.
  destruct (c env w1) as [[u|e] w2]; simpl in *;
    exists (evs1 ++ evs2); by rewrite Ht2, Ht1, <- app_assoc.
Qed.

Lemma wp_callGateway c env w Q :
  (∀ r, r = env_callGateway env (trace w) c →
        Q r [EvGateway c r] (record (EvGateway c r) w)) →
  wp (callGateway c) env w Q.
Proof. intros H. eexists. split; [done|]. by apply H. Qed.

Lemma wp_readLatestAssistantReply k env w Q :
  (∀ r, Q r [EvReadLatestAssistantReply k r]
          (record (EvReadLatestAssistantReply k r) w)) →
  wp (readLatestAssistantReply k) env w Q.
Proof. intros H. eexists. split; [done|]. by apply H. Qed.

Lemma wp_resolveAnnounceTarget k d env w Q :
  (∀ r, Q r [EvResolveAnnounceTarget k d r]
          (record (EvResolveAnnounceTarget k d r) w)) →
  wp (resolveAnnounceTarget k d) env w Q.
Proof. intros H. eexists. split; [done|]. by apply H. Qed.

Lemma wp_runAgentStep p env w Q :
  (∀ r, Q r [EvRunAgentStep p r] (record (EvRunAgentStep p r) w)) →
  wp (runAgentStep p) env w Q.
Proof. intros H. eexists. split; [done|]. by apply H. Qed.

Lemma wp_loadSessionStore sp k env w Q :
  (∀ r, r = env_loadSessionStore env (trace w) sp k →
        Q r [EvLoadSessionStore sp k r] (record (EvLoadSessionStore sp k r) w)) →
  wp (loadSessionStore sp k) env w Q.
Proof. intros H. eexists. split; [done|]. by apply H. Qed.

Lemma wp_sleep ms env w Q :
  Q (Return tt) [EvSleep ms] (record (EvSleep ms) w) → wp (sleep ms) env w Q.
Proof. intros H. eexists. split; [done|]. by apply H. Qed.

Lemma wp_randomUUID env w Q :
  (∀ u, Q (Return u) [EvRandomUUID u] (record (EvRandomUUID u) w)) →
  wp randomUUID env w Q.
Proof. intros H. eexists. split; [done|]. by apply H. Qed.

Lemma wp_withRegistry {A} (f : Registry → A * Registry) env w Q :
  Q (Return (fst (f (registry w)))) []
    {| trace := trace w; registry := snd (f (registry w));
       detached := detached w |} →
  wp (withRegistry f) env w Q.
Proof.
  intros H. exists []. unfold withRegistry.
  destruct (f (registry w)); simpl in *. by rewrite app_nil_r.
Qed.

Lemma wp_detach ps env w Q :
  Q (Return tt) [] {| trace := trace w; registry := registry w;
                      detached := detached w ++ ps |} →
  wp (detach ps) env w Q.
Proof. intros H. exists []. simpl. by rewrite app_nil_r. Qed.

Lemma wp_spawnAndSettle L opts args env w
      (Q : Outcome SpawnResult → list Event → World → Prop) :
  wp (execute L opts args) env (clearDetached w) (λ out evs1 w1,
    wp (runDetached L (detached w1)) env (clearDetached w1) (λ _ evs2 w2,
      Q out (evs1 ++ evs2)
        {| trace := trace w2; registry := registry w2;
           detached := detached w |})) →
  wp (spawnAndSettle L opts args) env w Q.
Proof.
  unfold wp, spawnAndSettle, clearDetached.
  intros (evs1 & Ht1 & evs2 & Ht2 & HQ).
  destruct (execute L opts args env _) as [out w1]. simpl in *.
  destruct (runDetached L (detached w1) env _) as [o2 w2]. simpl in *.
  exists (evs1 ++ evs2). split; [|done].
  by rewrite Ht2, Ht1, <- app_assoc.
Qed.

(** One step of symbolic execution; an external call splits into the
    outcomes it can have. *)
Ltac wp_step :=
  lazymatch goal with
  | |- wp (bind _ _) _ _ _ => apply wp_bind
  | |- wp (ret _) _ _ _ => apply wp_ret
  | |- wp (tryCatch _ _) _ _ _ => apply wp_tryCatch
  | |- wp (tryFinally _ _) _ _ _ => apply wp_tryFinally
  | |- wp (callGateway _) _ _ _ => apply wp_callGateway; intros [?|?] _
  | |- wp (readLatestAssistantReply _) _ _ _ =>
      apply wp_readLatestAssistantReply; intros [?|?]
  | |- wp (resolveAnnounceTarget _ _) _ _ _ =>
      apply wp_resolveAnnounceTarget; intros [[?|]|?]
  | |- wp (runAgentStep _) _ _ _ => apply wp_runAgentStep; intros [?|?]
  | |- wp (loadSessionStore _ _) _ _ _ =>
      apply wp_loadSessionStore; intros [?|?] _
  | |- wp (sleep _) _ _ _ => apply wp_sleep
  | |- wp randomUUID _ _ _ => apply wp_randomUUID; intros ?
  | |- wp (withRegistry _) _ _ _ => apply wp_withRegistry
  | |- wp (detach _) _ _ _ => apply wp_detach
  | |- wp (if ?b then _ else _) _ _ _ =>
      let H := fresh "Hif" in destruct b eqn:H
  | |- wp (match ?x with inl _ => _ | inr _ => _ end) _ _ _ =>
      let H := fresh "Hsum" in destruct x eqn:H
  | |- wp (match ?x with Some _ => _ | None => _ end) _ _ _ =>
      let H := fresh "Hopt" in destruct x eqn:H
  end; cbv beta iota.

Ltac wp_run := repeat wp_step.

Ltac unfold_execute :=
  unfold execute, awaitRun, applyModelOverride, startRun, waitRun; cbv zeta.

(** ** Gateway methods of an event list *)

Lemma methodsCalled_app evs1 evs2 :
  methodsCalled (evs1 ++ evs2) = methodsCalled evs1 ++ methodsCalled evs2.
Proof. unfold methodsCalled, gatewayCalls. by rewrite omap_app, fmap_app. Qed.

Lemma methodsCalled_cons ev evs :
  methodsCalled (ev :: evs)
  = match gatewayCallOf ev with
    | Some call => [gw_method call]
    | None => []
    end ++ methodsCalled evs.
Proof.
  unfold methodsCalled, gatewayCalls. simpl. by destruct (gatewayCallOf ev).
Qed.

Lemma methodsCalled_nil : methodsCalled [] = [].
Proof. done. Qed.


Lemma methodsCalled_usage evs :
  Forall isUsageEvent evs → methodsCalled evs = [].
Proof.
  induction 1 as [|ev evs Hev _ IH]; [done|].
  rewrite methodsCalled_cons, IH. by destruct ev.
Qed.

Lemma usage_no_agent_step evs sp r :
  Forall isUsageEvent evs → EvRunAgentStep sp r ∉ evs.
Proof. intros Hf Hin. rewrite Forall_forall in Hf. exact (Hf _ Hin). Qed.



Ltac simpl_methods :=
  repeat (rewrite ?methodsCalled_app, ?methodsCalled_cons, ?methodsCalled_nil;
          simpl gatewayCallOf; cbv beta iota; simpl gw_method; simpl app);
  repeat match goal with
         | Hf : Forall isUsageEvent ?evs |- context [methodsCalled ?evs] =>
             rewrite (methodsCalled_usage evs Hf)
         end;
  simpl app.

Ltac split_elem_of Hin :=
  repeat (rewrite ?elem_of_app, ?elem_of_cons, ?elem_of_nil in Hin);
  repeat match goal with
         | H : _ ∨ _ |- _ => destruct H
         | H : False |- _ => destruct H
         | H : EvRunAgentStep _ _ ∈ ?evs, Hf : Forall isUsageEvent ?evs |- _ =>
             destruct (usage_no_agent_step _ _ _ Hf H)
         end.

(** ** Strings *)

Lemma prefix_app s post : String.prefix s (s +:+ post) = true.
Proof.
  induction s as [|c s IH]; simpl; [by destruct post|].
  destruct (ascii_dec c c); [done|congruence].
Qed.

Lemma includes_unfold haystack needle :
  includes haystack needle
  = String.prefix needle haystack
    || match haystack with
       | EmptyString => false
       | String _ rest => includes rest needle
       end.
Proof. by destruct haystack. Qed.

Lemma includes_prefix s post : includes (s +:+ post) s = true.
Proof. by rewrite includes_unfold, prefix_app. Qed.

Lemma includes_app pre s post : includes (pre +:+ s +:+ post) s = true.
Proof.
  induction pre as [|c pre IH].
  - change (EmptyString +:+ s +:+ post) with (s +:+ post). apply includes_prefix.
  - change (String c pre +:+ s +:+ post) with (String c (pre +:+ s +:+ post)).
    rewrite includes_unfold, IH. apply orb_true_r.
Qed.

Lemma append_assoc (a b c : string) : (a +:+ b) +:+ c = a +:+ b +:+ c.
Proof.
  induction a as [|x a IH]; [done|].
  change ((String x a +:+ b) +:+ c) with (String x ((a +:+ b) +:+ c)).
  by rewrite IH.
Qed.

Lemma join_cons_cons sep a b rest :
  join sep (a :: b :: rest) = a +:+ sep +:+ join sep (b :: rest).
Proof. done. Qed.

(** ** Subagent registry: the announce gate *)

Lemma beginSubagentAnnounce_claims r r' reg :
  r ∈ reg_claimed (snd (beginSubagentAnnounce r' reg))
  ↔ r = r' ∨ r ∈ reg_claimed reg.
Proof. unfold beginSubagentAnnounce. case_decide; simpl; set_solver. Qed.

Lemma claimCount_cons r op ops :
  claimCount r (op :: ops)
  = ((if opClaims r op then 1 else 0) + claimCount r ops)%nat.
Proof.
  unfold claimCount. destruct (opClaims r op) eqn:E.
  - by rewrite filter_cons_True.
  - rewrite filter_cons_False; [done|]. by rewrite E.
Qed.

Lemma claimResults_step r r' ops reg
      (rest : Registry → list bool) :
  (∀ reg0, rest reg0 =
     if decide (r ∈ reg_claimed reg0)
     then repeat false (claimCount r ops)
     else match claimCount r ops with
          | O => []
          | S n => true :: repeat false n
          end) →
  (let '(b, reg') := beginSubagentAnnounce r' reg in
   (if bool_decide (r' = r) then [b] else []) ++ rest reg')
  = if decide (r ∈ reg_claimed reg)
    then repeat false ((if bool_decide (r' = r) then 1 else 0) + claimCount r ops)
    else match ((if bool_decide (r' = r) then 1 else 0) + claimCount r ops)%nat with
         | O => []
         | S n => true :: repeat false n
         end.
Proof.
  intros Hrest. unfold beginSubagentAnnounce.
  destruct (decide (r' ∈ reg_claimed reg)) as [Hin|Hin]; rewrite Hrest; simpl.
  - case_bool_decide as Hr; simpl.
    + subst r'. by rewrite !decide_True.
    + done.
  - case_bool_decide as Hr; simpl.
    + subst r'. rewrite decide_True by set_solver. by rewrite decide_False.
    + destruct (decide (r ∈ reg_claimed reg)) as [Hc|Hc].
      * by rewrite decide_True by set_solver.
      * by rewrite decide_False by set_solver.
Qed.

Lemma claimResults_general r ops : ∀ reg,
  claimResults r ops reg =
    if decide (r ∈ reg_claimed reg)
    then repeat false (claimCount r ops)
    else match claimCount r ops with
         | O => []
         | S n => true :: repeat false n
         end.
Proof.
  induction ops as [|op ops IH]; intros reg.
  - simpl. by case_decide.
  - rewrite claimCount_cons. destruct op as [run | r' | p]; simpl.
    + apply (IH (registerSubagentRun run reg)).
    + by apply claimResults_step.
    + by apply claimResults_step.
Qed.

Lemma launchedFlows_general r ops : ∀ reg,
  (length (flowsFor r (launchedFlows ops reg))
   ≤ (if decide (r ∈ reg_claimed reg) then 0 else 1))%nat.
Proof.
  induction ops as [|op ops IH]; intros reg.
  - simpl. case_decide; simpl; lia.
  - destruct op as [run | r' | p]; simpl.
    + apply (IH (registerSubagentRun run reg)).
    + specialize (IH (snd (beginSubagentAnnounce r' reg))).
      pose proof (beginSubagentAnnounce_claims r r' reg) as Hc.
      destruct (decide (r ∈ reg_claimed reg)) as [Hin|Hin].
      * rewrite decide_True in IH by (apply Hc; by right). done.
      * case_decide; lia.
    + unfold announceGate, beginSubagentAnnounce.
      destruct (decide (ap_childRunId p ∈ reg_claimed reg)) as [Hin|Hin].
      * simpl. apply IH.
      * specialize (IH {| reg_runs := reg_runs reg;
                          reg_claimed := {[ap_childRunId p]} ∪ reg_claimed reg |}).
        unfold flowsFor in *. rewrite filter_app, length_app. simpl in IH.
        destruct (decide (ap_childRunId p = r)) as [Heq|Hne].
        -- rewrite filter_cons_True by exact Heq. simpl.
           rewrite decide_True in IH by set_solver.
           rewrite decide_False by (by rewrite <- Heq). lia.
        -- rewrite filter_cons_False by done. simpl.
           destruct (decide (r ∈ reg_claimed reg)) as [Hc|Hc].
           ++ by rewrite decide_True in IH by set_solver.
           ++ case_decide; lia.
Qed.

(** C1.  From the start of the process (the empty registry), over any
    sequence of registry operations issued by any number of call paths in
    any order, the claim invocations for a run id [r] answer [true] the first
    time and [false] every later time; and at most one announce flow is ever
    started for [r] through the gate of [execute]. *)
Theorem announce_claim_exactly_once (r : string) (ops : list RegistryOp) :
  claimResults r ops emptyRegistry
  = match claimCount r ops with
    | O => []
    | S n => true :: repeat false n
    end
  ∧ (length (flowsFor r (launchedFlows ops emptyRegistry)) ≤ 1)%nat.
Proof.
  split.
  - rewrite claimResults_general. simpl. by rewrite decide_False by set_solver.
  - pose proof (launchedFlows_general r ops emptyRegistry) as H.
    simpl in H. by rewrite decide_False in H by set_solver.
Qed.

(** ** Usage resolver *)



Lemma statsLineOf_includes_tokens L key s e entry storePath :
  includes (statsLineOf L key s e entry storePath) (tokensPart L entry) = true.
Proof.
  unfold statsLineOf.
  set (rt := "runtime " +:+ _).
  set (cost := match formatUsd L _ with Some _ => _ | None => _ end).
  set (tail := (if truthy _ then _ else _) ++ _).
  destruct cost as [|c cost]; cbn [app]; rewrite !join_cons_cons.
  - replace ("Stats: " +:+ rt +:+ " • " +:+ tokensPart L entry +:+ " • "
             +:+ join " • " (("sessionKey " +:+ key) :: tail))
      with (("Stats: " +:+ rt +:+ " • ") +:+ tokensPart L entry
            +:+ (" • " +:+ join " • " (("sessionKey " +:+ key) :: tail)))
      by (by rewrite !append_assoc).
    apply includes_app.
  - replace ("Stats: " +:+ rt +:+ " • " +:+ tokensPart L entry +:+ " • "
             +:+ join " • " (c :: cost ++ ("sessionKey " +:+ key) :: tail))
      with (("Stats: " +:+ rt +:+ " • ") +:+ tokensPart L entry
            +:+ (" • " +:+ join " • " (c :: cost ++ ("sessionKey " +:+ key) :: tail)))
      by (by rewrite !append_assoc).
    apply includes_app.
Qed.

Lemma tokensPart_without_tokens L entry :
  hasTokens entry = false → tokensPart L entry = "tokens n/a".
Proof.
  unfold hasTokens, tokensPart, resolvedTotal.
  destruct entry as [[sid [i|] [o|] [t|] m mp]|]; simpl; try done.
Qed.

Lemma tokensPart_with_counts L entry t i o :
  entry_totalTokens entry = Some t → entry_inputTokens entry = Some i →
  entry_outputTokens entry = Some o →
  tokensPart L (Some entry)
  = "tokens " +:+ formatTokenCount L (Some t) +:+ " (in "
    +:+ formatTokenCount L (Some i) +:+ " / out "
    +:+ formatTokenCount L (Some o) +:+ ")".
Proof.
  intros Ht Hi Ho. unfold tokensPart, resolvedTotal. simpl.
  by rewrite Ht, Hi, Ho.
Qed.

Section Polling.
Variables (L : Lib) (env : Env) (key : string) (w : World).
Variable answers : nat → option SessionEntry.

Let storePath :=
  resolveStorePath L (cfg_sessionStore (loadConfig L))
                   (resolveAgentIdFromSessionKey L key).

(** The store answers the reads made from [w] on with [answers 0],
    [answers 1], ... *)
Hypothesis Hstore : ∀ evs,
  env_loadSessionStore env (trace w ++ evs) storePath key
  = Return (answers (storeReads evs)).

Lemma first_read :
  env_loadSessionStore env (trace w) storePath key = Return (answers 0%nat).
Proof using Hstore. rewrite <- (app_nil_r (trace w)). by rewrite Hstore. Qed.

Ltac load_step :=
  apply wp_bind; apply wp_loadSessionStore;
  let r := fresh "r" in
  let Hr := fresh "Hr" in
  intros r Hr; simpl trace in Hr; rewrite <- ?app_assoc in Hr;
  first [ rewrite Hstore in Hr | rewrite first_read in Hr ];
  unfold storeReads in Hr; simpl in Hr; subst r; cbv beta iota.

Lemma waitForSessionUsage_polls (j : nat) :
  (j ≤ 4)%nat →
  (∀ i, (i < j)%nat → hasTokens (answers i) = false) →
  (j ≠ 0%nat → is_Some (answers 0%nat)) →
  (answers 0%nat = None ∧ j = 0%nat)
  ∨ hasTokens (answers j) = true ∨ j = 4%nat →
  wp (waitForSessionUsage L key) env w (λ o evs _,
    o = Return (answers j, storePath)
    ∧ evs = pollingEvents storePath key answers j).
Proof using Hstore.
  intros Hj Hlt Hsome Hlast.
  unfold waitForSessionUsage, pollingEvents. fold storePath.
  load_step.
  destruct j as [|j].
  { destruct Hlast as [[H0 _]|[Ht|Hj4]]; [| |lia].
    - rewrite H0. by wp_run.
    - destruct (answers 0%nat) as [e0|] eqn:H0; [|by wp_run].
      rewrite Ht. by wp_run. }
  destruct Hsome as [e0 H0]; [done|].
  rewrite H0. cbv iota. rewrite <- H0.
  rewrite (Hlt 0%nat) by lia.
  assert (answers 0%nat = None ∧ S j = 0%nat → False) as Hne by (intros [_ ?]; lia).
  apply wp_bind. unfold pollSessionUsage.
  assert (j = 0 ∨ j = 1 ∨ j = 2 ∨ j = 3)%nat as Hcases by lia.
  destruct Hcases as [-> | [-> | [-> | ->]]].
  - wp_step. wp_step. load_step.
    destruct Hlast as [[]%Hne|[Ht|Hj4]]; [|lia]. rewrite Ht.
    wp_run. done.
  - wp_step. wp_step. load_step. rewrite (Hlt 1%nat) by lia.
    wp_step. wp_step. load_step.
    destruct Hlast as [[]%Hne|[Ht|Hj4]]; [|lia]. rewrite Ht.
    wp_run. done.
  - wp_step. wp_step. load_step. rewrite (Hlt 1%nat) by lia.
    wp_step. wp_step. load_step. rewrite (Hlt 2%nat) by lia.
    wp_step. wp_step. load_step.
    destruct Hlast as [[]%Hne|[Ht|Hj4]]; [|lia]. rewrite Ht.
    wp_run. done.
  - wp_step. wp_step. load_step. rewrite (Hlt 1%nat) by lia.
    wp_step. wp_step. load_step. rewrite (Hlt 2%nat) by lia.
    wp_step. wp_step. load_step. rewrite (Hlt 3%nat) by lia.
    wp_step. wp_step. load_step.
    destruct (hasTokens (answers 4%nat)); wp_run; done.
Qed.

Lemma buildSubagentStatsLine_polls (j : nat) startedAt endedAt :
  (j ≤ 4)%nat →
  (∀ i, (i < j)%nat → hasTokens (answers i) = false) →
  (j ≠ 0%nat → is_Some (answers 0%nat)) →
  (answers 0%nat = None ∧ j = 0%nat)
  ∨ hasTokens (answers j) = true ∨ j = 4%nat →
  wp (buildSubagentStatsLine L key startedAt endedAt) env w (λ o evs _,
    o = Return (statsLineOf L key startedAt endedAt (answers j) storePath)
    ∧ evs = pollingEvents storePath key answers j).
Proof using Hstore.
  intros Hj Hlt Hsome Hlast. unfold buildSubagentStatsLine.
  apply wp_bind. eapply wp_mono; [by apply (waitForSessionUsage_polls j)|].
  intros o evs w' (-> & ->). cbv beta iota.
  wp_step. by rewrite app_nil_r.
Qed.
End Polling.

Lemma pollingEvents_counts storePath key answers (j : nat) :
  sleeps (pollingEvents storePath key answers j) = repeat 200 j
  ∧ storeReads (pollingEvents storePath key answers j) = S j.
Proof.
  unfold pollingEvents.
  set (f := fun i => [EvSleep 200;
                      EvLoadSessionStore storePath key (Return (answers (S i)))]).
  assert (∀ k, sleeps (flat_map f (List.seq k j)) = repeat 200 j
               ∧ storeReads (flat_map f (List.seq k j)) = j) as H.
  { induction j as [|j IH]; intros k; [done|].
    destruct (IH (S k)) as [Hs Hr]. split.
    - change (sleeps (flat_map f (List.seq k (S j))))
        with (200 :: sleeps (flat_map f (List.seq (S k) j))).
      by rewrite Hs.
    - change (storeReads (flat_map f (List.seq k (S j))))
        with (S (storeReads (flat_map f (List.seq (S k) j)))).
      by rewrite Hr. }
  destruct (H 0%nat) as [Hs Hr]. split.
  - exact Hs.
  - change (S (storeReads (flat_map f (List.seq 0 j))) = S j). by rewrite Hr.
Qed.

(** C4 (amended).  The store answers the reads of the child entry with
    [answers 0], [answers 1], ...  The usage resolver stops at the read
    number [j <= 4]: at the first read ([j = 0]) when there is no entry
    then, or when the entry has token data already; otherwise, the entry
    being there without token data, at the first re-poll that shows token
    data, or at the fourth re-poll.  Its events are exactly the first
    read, then [j] times a sleep of 200 ms followed by a read.  It returns
    a statistics line, without raising, that reports the entry of read
    [j]: the stored total, or else input plus output when both are there,
    with the input and output counts (["n/a"] for a missing one), and
    ["tokens n/a"] when there is no total to report, in particular when
    token data never appeared. *)
Theorem usage_resolver_reconciles (L : Lib) (env : Env) (key : string)
        (startedAt endedAt : option Z) (w : World)
        (answers : nat → option SessionEntry) (j : nat) :
  (∀ evs,
     env_loadSessionStore env (trace w ++ evs)
       (resolveStorePath L (cfg_sessionStore (loadConfig L))
                         (resolveAgentIdFromSessionKey L key)) key
     = Return (answers (storeReads evs))) →
  (j ≤ 4)%nat →
  (∀ i, (i < j)%nat → hasTokens (answers i) = false) →
  (j ≠ 0%nat → is_Some (answers 0%nat)) →
  (answers 0%nat = None ∧ j = 0%nat)
  ∨ hasTokens (answers j) = true ∨ j = 4%nat →
  ∃ line w',
    buildSubagentStatsLine L key startedAt endedAt env w = (Return line, w')
    ∧ eventsSince w w'
      = pollingEvents
          (resolveStorePath L (cfg_sessionStore (loadConfig L))
                            (resolveAgentIdFromSessionKey L key))
          key answers j
    ∧ sleeps (eventsSince w w') = repeat 200 j
    ∧ storeReads (eventsSince w w') = S j
    ∧ (if hasTokens (answers j) then True else includes line "tokens n/a" = true)
    ∧ match answers j with
      | None => includes line "tokens n/a" = true
      | Some entry =>
          let count := fun n : Z => formatTokenCount L (Some n) in
          let countOrNa := fun n : option Z =>
            match n with Some n => count n | None => "n/a" end in
          match entry_totalTokens entry, entry_inputTokens entry,
                entry_outputTokens entry with
          | Some total, input, output =>
              includes line
                ("tokens " +:+ count total +:+ " (in " +:+ countOrNa input
                 +:+ " / out " +:+ countOrNa output +:+ ")") = true
          | None, Some input, Some output =>
              includes line
                ("tokens " +:+ count (input + output) +:+ " (in "
                 +:+ count input +:+ " / out " +:+ count output +:+ ")") = true
          | None, _, _ => includes line "tokens n/a" = true
          end
      end.
Proof.
  intros Hstore Hj Hlt Hsome Hlast.
  destruct (buildSubagentStatsLine L key startedAt endedAt env w)
    as [out w'] eqn:Hrun.
  pose proof (wp_elim _ _ _ _ _ _
                (buildSubagentStatsLine_polls L env key w answers Hstore j
                   startedAt endedAt Hj Hlt Hsome Hlast) Hrun)
    as (-> & Hevs).
  eexists _, _. split; [reflexivity|].
  split; [exact Hevs|]. rewrite Hevs.
  split; [apply pollingEvents_counts|]. split; [apply pollingEvents_counts|].
  pose proof (statsLineOf_includes_tokens L key startedAt endedAt (answers j)
                (resolveStorePath L (cfg_sessionStore (loadConfig L))
                                  (resolveAgentIdFromSessionKey L key))) as Hinc.
  split.
  - destruct (hasTokens (answers j)) eqn:Ht; [done|].
    by rewrite (tokensPart_without_tokens L _ Ht) in Hinc.
  - destruct (answers j) as [[sid i o t m mp]|]; [|exact Hinc].
    cbv zeta. simpl entry_totalTokens. simpl entry_inputTokens.
    simpl entry_outputTokens.
    destruct t as [t|], i as [i|], o as [o|]; exact Hinc.
Qed.

(** ** Announce flow *)

Section FlowProperties.
Variable L : Lib.












End FlowProperties.

(** ** The [sessions_spawn] tool *)

Section SpawnProperties.
Variable L : Lib.


(** C2.  When the requester session key is recognised as a sub-agent key,
    the tool returns (it does not throw) a result with status ["forbidden"]
    and the world is untouched: no event at all was added, so no gateway
    method, [agent] included, was invoked, nothing was registered and no
    flow was detached. *)
Theorem no_nested_spawning (env : Env) (opts : ToolOpts) (args : SpawnArgs)
        (w : World) (key : string) :
  agentSessionKey opts = Some key →
  isSubagentSessionKey L key = true →
  ∃ r w',
    spawnAndSettle L opts args env w = (Return r, w')
    ∧ res_status r = "forbidden"
    ∧ eventsSince w w' = []
    ∧ methodsCalled (eventsSince w w') = []
    ∧ registry w' = registry w
    ∧ detached w' = detached w.
Proof.
  intros Hkey Hsub.
  unfold spawnAndSettle, execute. rewrite Hkey, Hsub. simpl.
  eexists _, _. split; [reflexivity|].
  unfold eventsSince. simpl. by rewrite drop_all.
Qed.

Ltac use_recoverable :=
  match goal with
  | H : negb (recoverable ?m) = true |- _ =>
      apply negb_true_iff in H; rewrite H
  | H : negb (recoverable ?m) = false |- _ =>
      apply negb_false_iff in H; rewrite H
  end.

Lemma execute_model_patch_failure env opts args w :
  wp (execute L opts args) env w (λ out evs _,
    ∀ key model e,
      EvGateway (patchModelCall key model) (Raise e) ∈ evs →
      if recoverable (messageTextOf e)
      then ("agent" ∈ methodsCalled evs)
           ∧ match out with
             | Return r =>
                 (res_modelApplied r = Some false
                  ∧ res_warning r = Some (messageTextOf e))
                 ∨ (∃ call e', EvGateway call (Raise e') ∈ evs
                               ∧ (gw_method call = "agent"
                                  ∨ gw_method call = "agent.wait"))
             | Raise _ => True
             end
      else ("agent" ∉ methodsCalled evs)
           ∧ ∃ r, out = Return r ∧ res_status r = "error"
                  ∧ res_error r = Some (messageTextOf e)).
Proof.
  unfold_execute.
  wp_run.
  all: intros key model e' Hin; split_elem_of Hin; simplify_eq.
  all: use_recoverable.
  all: split; [simpl_methods; set_solver|].
  all: try done.
  all: try (left; done).
  all: try (eexists; repeat split; reflexivity).
  all: right;
    match goal with
    | |- context [EvGateway ?call (Raise ?e0)] =>
        exists call, e0; split;
        [ simpl; set_solver
        | first [left; reflexivity | right; reflexivity] ]
    end.
Qed.

(** C3 (amended).  When the [sessions.patch] call that applies the model
    override fails with message [m]:
    if [m] contains ["invalid model"] or ["model not allowed"], the [agent]
    run-start call is still issued, and a result returned after that has
    [modelApplied = false] and [warning = m], unless the [agent] call or the
    [agent.wait] call itself raised;
    otherwise the tool returns a result with status ["error"] and error [m],
    and [agent] is never called. *)
Theorem model_override_recoverability (env : Env) (opts : ToolOpts)
        (args : SpawnArgs) (w w' : World) (out : Outcome SpawnResult)
        (key model : string) (e : Thrown) :
  execute L opts args env w = (out, w') →
  EvGateway (patchModelCall key model) (Raise e) ∈ eventsSince w w' →
  if recoverable (messageTextOf e)
  then ("agent" ∈ methodsCalled (eventsSince w w'))
       ∧ match out with
         | Return r =>
             (res_modelApplied r = Some false
              ∧ res_warning r = Some (messageTextOf e))
             ∨ (∃ call e', EvGateway call (Raise e') ∈ eventsSince w w'
                           ∧ (gw_method call = "agent"
                              ∨ gw_method call = "agent.wait"))
         | Raise _ => True
         end
  else ("agent" ∉ methodsCalled (eventsSince w w'))
       ∧ ∃ r, out = Return r ∧ res_status r = "error"
              ∧ res_error r = Some (messageTextOf e).
Proof.
  intros Hrun Hin.
  exact (wp_elim _ _ _ _ _ _ (execute_model_patch_failure env opts args w) Hrun
                 key model e Hin).
Qed.






Lemma execute_zero_timeout env opts args w :
  coerceTimeoutSeconds (arg_timeoutSeconds args) = 0 →
  wp (execute L opts args) env w (λ out evs w',
    ∀ call resp,
      EvGateway call (Return resp) ∈ evs → gw_method call = "agent" →
      ∃ r runId run,
        out = Return r
        ∧ res_status r = "accepted"
        ∧ res_runId r = Some runId
        ∧ last evs = Some (EvGateway call (Return resp))
        ∧ ("agent.wait" ∉ methodsCalled evs)
        ∧ reg_claimed (registry w') = reg_claimed (registry w)
        ∧ detached w' = detached w
        ∧ reg_runs (registry w') !! runId = Some run
        ∧ run_runId run = runId
        ∧ Some (run_childSessionKey run) = res_childSessionKey r).
Proof.
  intros Ht.
  unfold_execute. rewrite Ht. simpl (0 =? 0). cbv iota.
  wp_run.
  all: intros call resp Hin Hm; split_elem_of Hin; simplify_eq; try discriminate.
  all: eexists _, _, _; repeat split; simpl; try reflexivity.
  all: try (rewrite ?app_nil_r, ?app_assoc; apply last_snoc).
  all: try (simpl_methods; set_solver).
  all: try apply lookup_insert_eq.
  all: reflexivity.
Qed.

(** C9.  When the coerced [timeoutSeconds] is 0 and the [agent] run-start
    call returned, the tool returns a result with status ["accepted"] right
    after that call (it is the last event): no [agent.wait] call is made,
    the announce gate is not claimed, no announce flow is detached, and the
    run is in the registry under the run id of the result. *)
Theorem zero_timeout_accepted (env : Env) (opts : ToolOpts) (args : SpawnArgs)
        (w w' : World) (out : Outcome SpawnResult)
        (call : GatewayCall) (resp : GatewayResponse) :
  coerceTimeoutSeconds (arg_timeoutSeconds args) = 0 →
  execute L opts args env w = (out, w') →
  EvGateway call (Return resp) ∈ eventsSince w w' →
  gw_method call = "agent" →
  ∃ r runId run,
    out = Return r
    ∧ res_status r = "accepted"
    ∧ res_runId r = Some runId
    ∧ last (eventsSince w w') = Some (EvGateway call (Return resp))
    ∧ ("agent.wait" ∉ methodsCalled (eventsSince w w'))
    ∧ reg_claimed (registry w') = reg_claimed (registry w)
    ∧ detached w' = detached w
    ∧ reg_runs (registry w') !! runId = Some run
    ∧ run_runId run = runId
    ∧ Some (run_childSessionKey run) = res_childSessionKey r.
Proof.
  intros Ht Hex Hin Hm.
  exact (wp_elim _ _ _ _ _ _ (execute_zero_timeout env opts args w Ht) Hex
                 call resp Hin Hm).
Qed.

Lemma coerceTimeoutSeconds_nonneg v : 0 ≤ coerceTimeoutSeconds v.
Proof. destruct v as [| | |[]| |]; simpl; lia. Qed.

Lemma coerceTimeoutSeconds_idem v :
  coerceTimeoutSeconds (JsNum (JsFinite (inject_Z (coerceTimeoutSeconds v))))
  = coerceTimeoutSeconds v.
Proof.
  pose proof (coerceTimeoutSeconds_nonneg v).
  change (coerceTimeoutSeconds (JsNum (JsFinite ?q))) with (Z.max 0 (Qfloor q)).
  rewrite Qfloor_Z. lia.
Qed.

Lemma execute_waits_coerced env opts args w :
  wp (execute L opts args) env w (λ _ evs _,
    ∀ call res,
      EvGateway call res ∈ evs → gw_method call = "agent.wait" →
      0 < coerceTimeoutSeconds (arg_timeoutSeconds args)
      ∧ ∃ runId,
          gw_params call
          = AgentWait runId
              (coerceTimeoutSeconds (arg_timeoutSeconds args) * 1000)).
Proof.
  unfold_execute.
  pose proof (coerceTimeoutSeconds_nonneg (arg_timeoutSeconds args)) as Hn.
  wp_run.
  all: intros call res Hin Hm; split_elem_of Hin; simplify_eq; try discriminate.
  all: match goal with H : (_ =? 0) = false |- _ => apply Z.eqb_neq in H end.
  all: split; [lia|]; eexists; reflexivity.
Qed.

Lemma coerceTimeoutSeconds_whole (q : Q) :
  let n := coerceTimeoutSeconds (JsNum (JsFinite q)) in
  ((q < 0)%Q → n = 0)
  ∧ ((0 <= q)%Q → (inject_Z n <= q)%Q ∧ (q < inject_Z (n + 1))%Q).
Proof.
  change (coerceTimeoutSeconds (JsNum (JsFinite q))) with (Z.max 0 (Qfloor q)).
  cbv zeta. split.
  - intros Hneg.
    assert (Qfloor q < 0) as Hlt.
    { rewrite Zlt_Qlt. eapply Qle_lt_trans; [apply Qfloor_le|exact Hneg]. }
    lia.
  - intros Hpos.
    assert (0 ≤ Qfloor q) as Hle.
    { change 0 with (Qfloor 0). by apply Qfloor_resp_le. }
    rewrite Z.max_r by exact Hle.
    split; [apply Qfloor_le|apply Qlt_floor].
Qed.

(** C10.  The [timeoutSeconds] argument [v] is coerced to a whole number
    [n >= 0]: [max(0, floor(v))] for a finite number, that is 0 for a
    negative one and otherwise the whole number with [n <= v < n + 1]; and
    0 for anything else (missing, not a number, NaN, an infinity).  The
    call behaves exactly as with the whole number [n] passed instead, and
    when [n = 0] exactly as with [timeoutSeconds] missing.  An
    [agent.wait] the call issues means [n > 0], and its budget is
    [n * 1000] ms, as long as this product is at most [2^53], the range in
    which the product of the code is the exact one. *)
Theorem timeout_seconds_coercion (env : Env) (opts : ToolOpts)
        (args : SpawnArgs) (w : World) (v : JsValue) :
  let n := coerceTimeoutSeconds v in
  0 ≤ n
  ∧ match v with
    | JsNum (JsFinite q) =>
        n = Z.max 0 (Qfloor q)
        ∧ ((q < 0)%Q → n = 0)
        ∧ ((0 <= q)%Q → (inject_Z n <= q)%Q ∧ (q < inject_Z (n + 1))%Q)
    | _ => n = 0
    end
  ∧ execute L opts (setTimeoutSeconds args v) env w
    = execute L opts (setTimeoutSeconds args (JsNum (JsFinite (inject_Z n))))
              env w
  ∧ (n = 0 →
     execute L opts (setTimeoutSeconds args v) env w
     = execute L opts (setTimeoutSeconds args JsUndefined) env w)
  ∧ (∀ out w' call res,
       execute L opts (setTimeoutSeconds args v) env w = (out, w') →
       EvGateway call res ∈ eventsSince w w' →
       gw_method call = "agent.wait" →
       0 < n
       ∧ (n * 1000 ≤ 2 ^ 53 →
          ∃ runId, gw_params call = AgentWait runId (n * 1000))).
Proof.
  intros n. split; [apply coerceTimeoutSeconds_nonneg|].
  split.
  { destruct v as [| | |[| | |q]| |]; try reflexivity.
    split; [reflexivity|]. apply coerceTimeoutSeconds_whole. }
  split; [|split].
  - unfold execute. cbv zeta.
    change (arg_timeoutSeconds (setTimeoutSeconds args ?x)) with x.
    unfold n. rewrite coerceTimeoutSeconds_idem. reflexivity.
  - intros Hn. unfold execute. cbv zeta.
    change (arg_timeoutSeconds (setTimeoutSeconds args ?x)) with x.
    fold n. rewrite Hn. reflexivity.
  - intros out w' call res Hrun Hin Hm.
    destruct (wp_elim _ _ _ _ _ _
                (execute_waits_coerced env opts (setTimeoutSeconds args v) w)
                Hrun call res Hin Hm) as [Hpos Hwait].
    split; [exact Hpos|]. intros _. exact Hwait.
Qed.

End SpawnProperties.

(** ** The model on concrete runs *)

(** Replace the events of a concrete run by their value. *)
Ltac compute_events :=
  repeat match goal with
         | |- context [eventsSince ?w ?w'] =>
             let evs := eval vm_compute in (eventsSince w w') in
             change (eventsSince w w') with evs
         end.

Ltac elem_of_concrete :=
  repeat first [ apply list_elem_of_here | apply list_elem_of_further ].


(** A sub-agent session cannot spawn. *)
Lemma no_nested_spawning_witness :
  ∃ r w',
    spawnAndSettle Stub.lib (Stub.opts "agent:main:subagent:abc")
      (Stub.args None "keep" (JsNum (JsFinite 1))) Stub.happyEnv initialWorld
    = (Return r, w')
    ∧ res_status r = "forbidden"
    ∧ eventsSince initialWorld w' = []
    ∧ methodsCalled (eventsSince initialWorld w') = []
    ∧ registry w' = registry initialWorld
    ∧ detached w' = detached initialWorld.
Proof.
  apply (no_nested_spawning Stub.lib Stub.happyEnv
           (Stub.opts "agent:main:subagent:abc") _ initialWorld
           "agent:main:subagent:abc"); reflexivity.
Defined.

(** The last test of the suite: an invalid model override is skipped. *)
Lemma model_override_recoverability_witness :
  let run :=
    execute Stub.lib (Stub.opts "main")
      (Stub.args (Some "bad-model") "keep" (JsNum (JsFinite 1)))
      Stub.badModelEnv initialWorld in
  EvGateway (patchModelCall "agent:main:subagent:uuid-0" "bad-model")
            (Raise (ThrownError "invalid model: bad-model"))
    ∈ eventsSince initialWorld (snd run)
  ∧ ("agent" ∈ methodsCalled (eventsSince initialWorld (snd run)))
  ∧ ∃ r, fst run = Return r
         ∧ res_status r = "ok"
         ∧ res_modelApplied r = Some false
         ∧ res_warning r = Some "invalid model: bad-model".
Proof.
  intros run.
  assert (Hin : EvGateway (patchModelCall "agent:main:subagent:uuid-0" "bad-model")
                  (Raise (ThrownError "invalid model: bad-model"))
                ∈ eventsSince initialWorld (snd run)).
  { compute_events. elem_of_concrete. }
  split; [exact Hin|].
  pose proof (model_override_recoverability Stub.lib Stub.badModelEnv
                (Stub.opts "main")
                (Stub.args (Some "bad-model") "keep" (JsNum (JsFinite 1)))
                initialWorld (snd run) (fst run)
                "agent:main:subagent:uuid-0" "bad-model"
                (ThrownError "invalid model: bad-model")
                (surjective_pairing run) Hin) as [Hagent _].
  split; [exact Hagent|].
  eexists. vm_compute. repeat split.
Defined.

(** C3, as stated, fails: the patch fails with ["invalid model"], the run
    is started, the [agent.wait] call raises, and the result that comes
    back has neither [modelApplied = false] nor the warning. *)
Lemma model_warning_dropped_when_wait_raises :
  ∃ r w',
    execute Stub.lib (Stub.opts "main")
      (Stub.args (Some "bad-model") "keep" (JsNum (JsFinite 1)))
      Stub.badModelGatewayTimeoutEnv initialWorld
    = (Return r, w')
    ∧ EvGateway (patchModelCall "agent:main:subagent:uuid-0" "bad-model")
                (Raise (ThrownError "invalid model: bad-model"))
        ∈ trace w'
    ∧ includes "invalid model: bad-model" "invalid model" = true
    ∧ ("agent" ∈ methodsCalled (trace w'))
    ∧ res_modelApplied r ≠ Some false
    ∧ res_warning r = None.
Proof.
  eexists _, _. split; [vm_compute; reflexivity|].
  split; [simpl; elem_of_concrete|].
  split; [reflexivity|].
  split; [simpl_methods; elem_of_concrete|].
  split; [discriminate|reflexivity].
Qed.

(** The entry is there from the start; its input and output counts, with
    no stored total, show up at the second re-poll: the line reports their
    sum. *)
Lemma usage_resolver_reconciles_witness :
  ∃ line w',
    buildSubagentStatsLine Stub.lib "agent:main:subagent:uuid-0"
      (Some 1000) (Some 3500) Scenario.lateCountsEnv initialWorld
    = (Return line, w')
    ∧ sleeps (eventsSince initialWorld w') = [200; 200]
    ∧ storeReads (eventsSince initialWorld w') = 3%nat
    ∧ includes line "tokens 46 (in 12 / out 34)" = true.
Proof.
  destruct (usage_resolver_reconciles Stub.lib Scenario.lateCountsEnv
              "agent:main:subagent:uuid-0" (Some 1000) (Some 3500)
              initialWorld (Scenario.lateCounts 2) 2)
    as (line & w' & Hrun & _ & Hs & Hr & _ & Htokens).
  - intros evs. reflexivity.
  - lia.
  - intros i Hi. destruct i as [|[|i]]; [reflexivity|reflexivity|lia].
  - intros _. by eexists.
  - right. left. reflexivity.
  - exists line, w'. repeat split; [exact Hrun|exact Hs|exact Hr|exact Htokens].
Defined.

(** C4, as stated, fails: the entry lacks token data at the first read
    because it is not there yet, and shows up with its token counts at the
    second re-poll; the resolver reads the store once, does not poll, and
    the line has no token counts. *)
Lemma usage_absent_entry_not_polled :
  let answers := Scenario.lateEntry 2 in
  (∀ history,
     env_loadSessionStore Scenario.lateEntryEnv history
       "/state/agents/main/sessions/sessions.json"
       "agent:main:subagent:uuid-0"
     = Return (answers (storeReads history)))
  ∧ hasTokens (answers 0%nat) = false
  ∧ hasTokens (answers 1%nat) = false
  ∧ hasTokens (answers 2%nat) = true
  ∧ ∃ line w',
      buildSubagentStatsLine Stub.lib "agent:main:subagent:uuid-0"
        (Some 1000) (Some 3500) Scenario.lateEntryEnv initialWorld
      = (Return line, w')
      ∧ trace w'
        = [EvLoadSessionStore "/state/agents/main/sessions/sessions.json"
             "agent:main:subagent:uuid-0" (Return None)]
      ∧ includes line "tokens n/a" = true
      ∧ includes line "tokens 1.2k (in 1.2k / out 34)" = false.
Proof.
  intros answers. split; [by intros history|].
  split; [reflexivity|]. split; [reflexivity|]. split; [reflexivity|].
  eexists _, _. split; [vm_compute; reflexivity|].
  split; [reflexivity|]. split; vm_compute; reflexivity.
Qed.





(** A spawn without [timeoutSeconds] is accepted at once. *)
Lemma zero_timeout_accepted_witness :
  let run :=
    execute Stub.lib (Stub.opts "discord:group:req")
      (Stub.args None "keep" JsUndefined) Stub.happyEnv initialWorld in
  ∃ r,
    fst run = Return r
    ∧ res_status r = "accepted"
    ∧ res_runId r = Some "run-1"
    ∧ ("agent.wait" ∉ methodsCalled (eventsSince initialWorld (snd run)))
    ∧ reg_claimed (registry (snd run)) = ∅
    ∧ detached (snd run) = []
    ∧ is_Some (reg_runs (registry (snd run)) !! "run-1").
Proof.
  intros run.
  assert (∃ call resp, EvGateway call (Return resp)
                         ∈ eventsSince initialWorld (snd run)
                       ∧ gw_method call = "agent")
    as (call & resp & Hin & Hm).
  { compute_events. eexists _, _. split; [elem_of_concrete|reflexivity]. }
  destruct (zero_timeout_accepted Stub.lib Stub.happyEnv
              (Stub.opts "discord:group:req")
              (Stub.args None "keep" JsUndefined)
              initialWorld (snd run) (fst run) call resp
              eq_refl (surjective_pairing run) Hin Hm)
    as (r & runId & sr & Hout & Hst & Hid & _ & Hwait & Hreg & Hdet & Hrun & _).
  assert (fst run = Return
            {| res_status := "accepted"; res_error := None;
               res_childSessionKey := Some "agent:main:subagent:uuid-0";
               res_runId := Some "run-1"; res_reply := None;
               res_modelApplied := None; res_warning := None |}) as Hv
    by (vm_compute; reflexivity).
  assert (r = {| res_status := "accepted"; res_error := None;
                 res_childSessionKey := Some "agent:main:subagent:uuid-0";
                 res_runId := Some "run-1"; res_reply := None;
                 res_modelApplied := None; res_warning := None |}) as Hr
    by congruence.
  exists r. rewrite Hr in Hid. injection Hid as <-. rewrite Hr at 2 3.
  repeat split; done.
Defined.

(** [timeoutSeconds = 2.7] waits two seconds. *)
Lemma timeout_seconds_coercion_witness :
  let args := Stub.args None "keep" (JsNum (JsFinite (27 # 10))) in
  let run :=
    execute Stub.lib (Stub.opts "discord:group:req") args Stub.happyEnv
            initialWorld in
  coerceTimeoutSeconds (JsNum (JsFinite (27 # 10))) = 2
  ∧ 2 * 1000 ≤ 2 ^ 53
  ∧ ∃ call res,
      EvGateway call res ∈ eventsSince initialWorld (snd run)
      ∧ gw_method call = "agent.wait"
      ∧ ∃ runId, gw_params call = AgentWait runId 2000.
Proof.
  intros args run. split; [reflexivity|].
  assert (2 * 1000 ≤ 2 ^ 53) as Hbound by (vm_compute; discriminate).
  split; [exact Hbound|].
  assert (∃ call res, EvGateway call res ∈ eventsSince initialWorld (snd run)
                      ∧ gw_method call = "agent.wait")
    as (call & res & Hin & Hm).
  { compute_events. eexists _, _.
    split; [do 3 apply list_elem_of_further; apply list_elem_of_here|reflexivity]. }
  exists call, res. split; [exact Hin|]. split; [exact Hm|].
  destruct (timeout_seconds_coercion Stub.lib Stub.happyEnv
              (Stub.opts "discord:group:req") args initialWorld
              (JsNum (JsFinite (27 # 10))))
    as (_ & _ & _ & _ & Hwait).
  exact (proj2 (Hwait (fst run) (snd run) call res
                      (surjective_pairing run) Hin Hm) Hbound).
Defined.

(** * Further properties of the code *)

(** ** Tools *)

(** The outcome, the added events and the final world of a run. *)
Lemma wp_run_elim {A} (m : M A) env w Q :
  wp m env w Q →
  Q (fst (m env w)) (eventsSince w (snd (m env w))) (snd (m env w)).
Proof. intros H. by apply (wp_elim m env w Q), surjective_pairing. Qed.

Lemma sleeps_app evs1 evs2 : sleeps (evs1 ++ evs2) = sleeps evs1 ++ sleeps evs2.
Proof. unfold sleeps. apply omap_app. Qed.

Lemma storeReads_app evs1 evs2 :
  storeReads (evs1 ++ evs2) = (storeReads evs1 + storeReads evs2)%nat.
Proof. unfold storeReads. by rewrite List.filter_app, length_app. Qed.

Lemma prefix_append x : ∀ a b,
  String.prefix x a = true → String.prefix x (a +:+ b) = true.
Proof.
  induction x as [|c x IH]; intros a b H.
  - by destruct (a +:+ b).
  - destruct a as [|d a]; [done|].
    change (String d a +:+ b) with (String d (a +:+ b)).
    simpl in *. destruct (ascii_dec c d); [by apply IH|done].
Qed.

Lemma includes_append_r a b x :
  includes a x = true → includes (a +:+ b) x = true.
Proof.
  revert b. induction a as [|c a IH]; intros b H.
  - rewrite includes_unfold in H. rewrite orb_false_r in H.
    rewrite includes_unfold. by rewrite (prefix_append x EmptyString b H).
  - rewrite includes_unfold in H. apply orb_true_iff in H as [H|H].
    + rewrite includes_unfold. by rewrite (prefix_append _ _ b H).
    + change (String c a +:+ b) with (String c (a +:+ b)).
      rewrite includes_unfold, (IH b H). apply orb_true_r.
Qed.

Lemma includes_append_l a b x :
  includes b x = true → includes (a +:+ b) x = true.
Proof.
  intros H. induction a as [|c a IH]; [done|].
  change (String c a +:+ b) with (String c (a +:+ b)).
  rewrite includes_unfold, IH. apply orb_true_r.
Qed.

Lemma includes_refl x : includes x x = true.
Proof.
  rewrite includes_unfold.
  assert (String.prefix x x = true) as ->; [|done].
  induction x as [|c x IH]; [done|]. simpl. by destruct (ascii_dec c c).
Qed.

(** A joined list contains each of its parts. *)
Lemma includes_join sep x parts :
  x ∈ parts → includes (join sep parts) x = true.
Proof.
  induction parts as [|a parts IH]; intros Hin; [by apply elem_of_nil in Hin|].
  destruct parts as [|b parts].
  - apply list_elem_of_singleton in Hin as ->. apply includes_refl.
  - rewrite join_cons_cons. apply elem_of_cons in Hin as [->|Hin].
    + apply includes_append_r, includes_refl.
    + apply includes_append_l, includes_append_l. by apply IH.
Qed.

(** ** Usage resolver: polling, the statistics line, formatting *)

Lemma pollSessionUsage_bounds sp k n : ∀ entry env w,
  wp (pollSessionUsage sp k n entry) env w (λ out evs _,
    (∃ j, (j ≤ n)%nat ∧ sleeps evs = repeat 200 j ∧ storeReads evs = j
          ∧ methodsCalled evs = [])
    ∧ match out with
      | Return _ => True
      | Raise e => last evs = Some (EvLoadSessionStore sp k (Raise e))
      end).
Proof.
  induction n as [|n IH]; intros entry env w; simpl.
  - wp_run. split; [|done]. exists 0%nat. repeat split; done || lia.
  - wp_run.
    + split; [|done]. exists 1%nat. repeat split; done || lia.
    + eapply wp_mono; [apply IH|]. intros o evs w' [(j & Hj & Hs & Hr & Hm) Ho].
      cbv beta. split.
      * exists (S j). rewrite !sleeps_app, !storeReads_app, !methodsCalled_app.
        rewrite Hs, Hr, Hm. unfold storeReads, sleeps. simpl.
        repeat split; done || lia.
      * destruct o as [a0|e]; [done|]. rewrite !app_assoc.
        destruct evs as [|ev evs _] using rev_ind; [done|].
        rewrite last_snoc in Ho. by rewrite app_assoc, last_snoc.
    + split; [|done]. exists 1%nat. repeat split; done || lia.
Qed.

Lemma buildSubagentStatsLine_shape L key s e env w :
  wp (buildSubagentStatsLine L key s e) env w (λ out evs _,
    (∃ j, (j ≤ 4)%nat ∧ sleeps evs = repeat 200 j ∧ storeReads evs = S j
          ∧ methodsCalled evs = [])
    ∧ match out with
      | Return line =>
          ∃ entry,
            line = statsLineOf L key s e entry
                     (resolveStorePath L (cfg_sessionStore (loadConfig L))
                                       (resolveAgentIdFromSessionKey L key))
      | Raise err =>
          last evs
          = Some (EvLoadSessionStore
                    (resolveStorePath L (cfg_sessionStore (loadConfig L))
                                      (resolveAgentIdFromSessionKey L key))
                    key (Raise err))
      end).
Proof.
  unfold buildSubagentStatsLine, waitForSessionUsage.
  wp_run.
  - split; [|by eexists]. exists 0%nat. repeat split; done || lia.
  - eapply wp_mono; [apply pollSessionUsage_bounds|].
    intros o evs w' [(j & Hj & Hs & Hr & Hm) Ho]. cbv beta.
    destruct o as [entry'|err]; wp_run.
    + split; [|by eexists]. exists j.
      rewrite !sleeps_app, !storeReads_app, !methodsCalled_app, Hs, Hr, Hm.
      unfold storeReads, sleeps. simpl. rewrite ?app_nil_r.
      repeat split; done || lia.
    + split.
      * exists j.
        rewrite !sleeps_app, !storeReads_app, !methodsCalled_app, Hs, Hr, Hm.
        unfold storeReads, sleeps. simpl. repeat split; done || lia.
      * destruct evs as [|ev evs _] using rev_ind; [done|].
        rewrite last_snoc in Ho. by rewrite app_assoc, last_snoc.
  - split; [|by eexists]. exists 0%nat. repeat split; done || lia.
  - split; [|done]. exists 0%nat. repeat split; done || lia.
Qed.

(** X1.  Whatever the store answers, the usage resolver reads the store
    once, then at most 4 more times, each time after a sleep of exactly
    200 ms, and it calls no gateway method. *)
Theorem usage_polling_bounded (L : Lib) (env : Env) (key : string)
        (startedAt endedAt : option Z) (w : World) :
  let run := buildSubagentStatsLine L key startedAt endedAt env w in
  let evs := eventsSince w (snd run) in
  ∃ j, (j ≤ 4)%nat
       ∧ sleeps evs = repeat 200 j
       ∧ storeReads evs = S j
       ∧ methodsCalled evs = [].
Proof.
  intros run evs.
  exact (proj1 (wp_run_elim _ _ _ _
                  (buildSubagentStatsLine_shape L key startedAt endedAt env w))).
Qed.

Lemma statsLineOf_prefix L key s e entry storePath :
  String.prefix "Stats: runtime " (statsLineOf L key s e entry storePath) = true.
Proof.
  unfold statsLineOf. cbv zeta. cbn [app]. rewrite join_cons_cons.
  rewrite append_assoc, <- (append_assoc "Stats: " "runtime ").
  change ("Stats: " +:+ "runtime ") with "Stats: runtime ".
  apply prefix_app.
Qed.

Lemma statsLineOf_includes_key L key s e entry storePath :
  includes (statsLineOf L key s e entry storePath) ("sessionKey " +:+ key) = true.
Proof.
  unfold statsLineOf. cbv zeta.
  apply includes_append_l, includes_join.
  rewrite !elem_of_app, !elem_of_cons. tauto.
Qed.

(** X2.  When the usage resolver returns, its line starts with
    ["Stats: runtime "] and contains ["sessionKey <key>"]; it raises only
    when a read of the session store raised, and then with that very
    exception, the read being the last thing it did. *)
Theorem stats_line_shape (L : Lib) (env : Env) (key : string)
        (startedAt endedAt : option Z) (w : World) :
  let run := buildSubagentStatsLine L key startedAt endedAt env w in
  match fst run with
  | Return line =>
      String.prefix "Stats: runtime " line = true
      ∧ includes line ("sessionKey " +:+ key) = true
      ∧ truthy (Some line) = true
  | Raise err =>
      last (eventsSince w (snd run))
      = Some (EvLoadSessionStore
                (resolveStorePath L (cfg_sessionStore (loadConfig L))
                                  (resolveAgentIdFromSessionKey L key))
                key (Raise err))
  end.
Proof.
  intros run.
  pose proof (proj2 (wp_run_elim _ _ _ _
                (buildSubagentStatsLine_shape L key startedAt endedAt env w)))
    as H.
  fold run in H. destruct (fst run) as [line|err]; [|exact H].
  destruct H as [entry ->]. split; [apply statsLineOf_prefix|].
  split; [apply statsLineOf_includes_key|].
  pose proof (statsLineOf_prefix L key startedAt endedAt entry
                (resolveStorePath L (cfg_sessionStore (loadConfig L))
                                  (resolveAgentIdFromSessionKey L key))) as Hp.
  by destruct (statsLineOf _ _ _ _ _ _).
Qed.

Lemma waitForSessionUsage_first_read L env key w entry :
  env_loadSessionStore env (trace w)
    (resolveStorePath L (cfg_sessionStore (loadConfig L))
                      (resolveAgentIdFromSessionKey L key)) key
  = Return entry →
  entry = None ∨ hasTokens entry = true →
  wp (waitForSessionUsage L key) env w (λ out evs _,
    out = Return (entry,
                  resolveStorePath L (cfg_sessionStore (loadConfig L))
                                   (resolveAgentIdFromSessionKey L key))
    ∧ evs = [EvLoadSessionStore
               (resolveStorePath L (cfg_sessionStore (loadConfig L))
                                 (resolveAgentIdFromSessionKey L key))
               key (Return entry)]).
Proof.
  intros Hfirst Hentry. unfold waitForSessionUsage. cbv zeta.
  apply wp_bind, wp_loadSessionStore. intros r ->. rewrite Hfirst. cbv beta iota.
  destruct Hentry as [->|Ht].
  - by wp_run.
  - destruct entry as [en|]; [|by wp_run].
    rewrite Ht. by wp_run.
Qed.

(** X3.  If at the first read the entry is absent, or is there with token
    data, the usage resolver does not poll: that read is its only event (no
    sleep), and the line it returns is built from what was read; for an
    absent entry it contains ["tokens n/a"]. *)
Theorem usage_first_read_decides (L : Lib) (env : Env) (key : string)
        (startedAt endedAt : option Z) (w : World)
        (entry : option SessionEntry) :
  env_loadSessionStore env (trace w)
    (resolveStorePath L (cfg_sessionStore (loadConfig L))
                      (resolveAgentIdFromSessionKey L key)) key
  = Return entry →
  entry = None ∨ hasTokens entry = true →
  let run := buildSubagentStatsLine L key startedAt endedAt env w in
  let storePath :=
    resolveStorePath L (cfg_sessionStore (loadConfig L))
                     (resolveAgentIdFromSessionKey L key) in
  fst run = Return (statsLineOf L key startedAt endedAt entry storePath)
  ∧ eventsSince w (snd run) = [EvLoadSessionStore storePath key (Return entry)]
  ∧ includes (statsLineOf L key startedAt endedAt entry storePath)
             (tokensPart L entry) = true
  ∧ match entry with
    | None => tokensPart L entry = "tokens n/a"
    | Some _ => True
    end.
Proof.
  intros Hfirst Hentry run storePath.
  assert (wp (buildSubagentStatsLine L key startedAt endedAt) env w
            (λ out evs _,
               out = Return (statsLineOf L key startedAt endedAt entry storePath)
               ∧ evs = [EvLoadSessionStore storePath key (Return entry)])) as H.
  { unfold buildSubagentStatsLine. apply wp_bind.
    eapply wp_mono; [by apply (waitForSessionUsage_first_read L env key w entry)|].
    intros o evs w' [-> ->]. cbv beta iota. by wp_run. }
  destruct (wp_run_elim _ _ _ _ H) as [Hout Hevs].
  split; [exact Hout|]. split; [exact Hevs|].
  split; [apply statsLineOf_includes_tokens|]. by destruct entry.
Qed.

(** X4.  [formatDurationShort] yields nothing for a missing or non-positive
    duration; a positive number of milliseconds is rounded to whole seconds
    [t] and printed in the coarsest unit that is not zero: ["<t>s"] below a
    minute (["0s"] below 500 ms), minutes and seconds below an hour, hours
    and minutes from an hour on, the finer number always below 60. *)
Theorem formatDurationShort_units (v : Z) :
  formatDurationShort None = None
  ∧ (if v <=? 0 then formatDurationShort (Some v) = None
     else
       let t := (v + 500) / 1000 in
       0 ≤ t mod 60 < 60 ∧ 0 ≤ (t mod 3600) / 60 < 60
       ∧ formatDurationShort (Some v)
         = Some (if t <? 60 then pretty t +:+ "s"
                 else if t <? 3600
                      then pretty (t / 60) +:+ "m" +:+ pretty (t mod 60) +:+ "s"
                      else pretty (t / 3600) +:+ "h"
                           +:+ pretty ((t mod 3600) / 60) +:+ "m")).
Proof.
  split; [done|].
  destruct (v <=? 0) eqn:Hv; [by unfold formatDurationShort; rewrite Hv|].
  apply Z.leb_gt in Hv. cbv zeta.
  set (t := (v + 500) / 1000).
  assert (0 ≤ t) as Ht by (apply Z.div_pos; lia).
  split; [apply Z.mod_pos_bound; lia|].
  split.
  { split; [apply Z.div_pos; [apply Z.mod_pos_bound|]; lia|].
    apply Z.div_lt_upper_bound; [lia|]. pose proof (Z.mod_pos_bound t 3600). lia. }
  unfold formatDurationShort.
  assert ((v <=? 0) = false) as -> by (apply Z.leb_gt; lia).
  fold t.
  destruct (t <? 60) eqn:H60.
  - apply Z.ltb_lt in H60.
    assert (t / 3600 = 0) as -> by (apply Z.div_small; lia).
    assert (t mod 3600 = t) as -> by (apply Z.mod_small; lia).
    assert (t / 60 = 0) as -> by (apply Z.div_small; lia).
    assert (t mod 60 = t) as -> by (apply Z.mod_small; lia).
    done.
  - apply Z.ltb_ge in H60. destruct (t <? 3600) eqn:H3600.
    + apply Z.ltb_lt in H3600.
      assert (t / 3600 = 0) as -> by (apply Z.div_small; lia).
      assert (t mod 3600 = t) as -> by (apply Z.mod_small; lia).
      assert (0 < t / 60) as Hm by (apply Z.div_str_pos; lia).
      simpl (0 <? 0). cbv iota.
      by assert ((0 <? t / 60) = true) as -> by (apply Z.ltb_lt; lia).
    + apply Z.ltb_ge in H3600.
      assert (0 < t / 3600) as Hh by (apply Z.div_str_pos; lia).
      by assert ((0 <? t / 3600) = true) as -> by (apply Z.ltb_lt; lia).
Qed.

(** X5.  A cost found by [resolveModelCost] is the cost of a model
    configured under the trimmed provider name whose id is the trimmed model
    name, both non-empty; it is the first such model of the provider's
    list. *)
Theorem resolveModelCost_sound (L : Lib) (provider model : option string)
        (config : Config) (cost : ModelCost) :
  resolveModelCost L provider model config = Some cost →
  ∃ p m pre entry post,
    provider = Some p ∧ model = Some m
    ∧ truthy (Some (trim L p)) = true ∧ truthy (Some (trim L m)) = true
    ∧ default [] (cfg_providers config !! trim L p) = pre ++ entry :: post
    ∧ md_id entry = trim L m
    ∧ md_cost entry = Some cost
    ∧ Forall (λ other, md_id other ≠ trim L m) pre.
Proof.
  unfold resolveModelCost. cbv zeta.
  destruct provider as [p|], model as [m|];
    cbn [fmap option_fmap option_map]; try done.
  destruct (truthy (Some (trim L p))) eqn:Hp; cbn [negb orb]; [|done].
  destruct (truthy (Some (trim L m))) eqn:Hm; cbn [negb orb]; [|done].
  set (models := default [] _).
  intros H.
  assert (∀ l found,
    List.find (λ candidate, String.eqb (md_id candidate) (trim L m)) l
      = Some found →
    ∃ pre post, l = pre ++ found :: post ∧ md_id found = trim L m
                ∧ Forall (λ other, md_id other ≠ trim L m) pre) as Hfind.
  { induction l as [|a l IH]; intros found Hf; [done|]. simpl in Hf.
    destruct (String.eqb (md_id a) (trim L m)) eqn:Ha.
    - injection Hf as <-. exists [], l. apply String.eqb_eq in Ha. by repeat split.
    - destruct (IH _ Hf) as (pre & post & -> & Hid & Hpre).
      exists (a :: pre), post. repeat split; [done|].
      constructor; [|done]. by apply String.eqb_neq in Ha. }
  destruct (List.find _ models) as [entry|] eqn:Hf; [|done].
  destruct (Hfind _ _ Hf) as (pre & post & Heq & Hid & Hpre).
  exists p, m, pre, entry, post. by repeat split.
Qed.

(** ** Announce flow: what it calls, in which order, with what *)

Lemma statsLineOf_truthy L key s e entry storePath :
  truthy (Some (statsLineOf L key s e entry storePath)) = true.
Proof.
  pose proof (statsLineOf_prefix L key s e entry storePath) as Hp.
  by destruct (statsLineOf _ _ _ _ _ _).
Qed.

(** The usage resolver inside the flow: no gateway call, no announce step,
    and a line of the expected shape. *)
Lemma buildSubagentStatsLine_in_flow L key s e env w :
  wp (buildSubagentStatsLine L key s e) env w (λ out evs w',
    Forall isUsageEvent evs
    ∧ registry w' = registry w ∧ detached w' = detached w
    ∧ match out with
      | Return line =>
          truthy (Some line) = true
          ∧ String.prefix "Stats: runtime " line = true
      | Raise _ => True
      end).
Proof.
  assert (∀ sp k n entry env w,
    wp (pollSessionUsage sp k n entry) env w (λ _ evs w',
      Forall isUsageEvent evs
      ∧ registry w' = registry w ∧ detached w' = detached w)) as Hpoll.
  { intros sp k n. induction n as [|n IH]; intros entry env0 w0; simpl.
    - by wp_run.
    - wp_run; try (repeat split; repeat constructor; done).
      eapply wp_mono; [apply IH|]. intros o evs w' (Hf & Hr & Hd). simpl in *.
      repeat split; [by repeat constructor|done|done]. }
  unfold buildSubagentStatsLine, waitForSessionUsage.
  wp_run; try (repeat split; repeat constructor;
               done || apply statsLineOf_truthy || apply statsLineOf_prefix).
  eapply wp_mono; [apply Hpoll|].
  intros [o|o] evs w' (Hf & Hr & Hd); simpl in *; wp_run; rewrite ?app_nil_r;
    repeat split; repeat constructor;
    done || apply statsLineOf_truthy || apply statsLineOf_prefix.
Qed.

Ltac flow_run :=
  unfold runSubagentAnnounceFlow, announceCleanup, announceTry,
    announceWithReply;
  wp_run;
  try (eapply wp_mono; [apply buildSubagentStatsLine_in_flow|];
       let Hf := fresh "Hf" in
       let Hr := fresh "Hr" in
       let Hd := fresh "Hd" in
       let Hl := fresh "Hl" in
       intros [?line|?err] ?evs ?w' (Hf & Hr & Hd & Hl); cbv beta iota;
       simpl registry in Hr; simpl detached in Hd;
       wp_run).

Section FlowExtras.
Variable L : Lib.

Lemma flow_methods_in_order p env w :
  wp (runSubagentAnnounceFlow L p) env w (λ _ evs w',
    methodsCalled evs `sublist_of` flowMethods
    ∧ registry w' = registry w ∧ detached w' = detached w).
Proof.
  flow_run.
  all: simpl registry; simpl detached; simpl_methods.
  all: repeat split; try congruence.
  all: unfold flowMethods;
    repeat first [ apply sublist_nil | apply sublist_skip; [] | apply sublist_cons
                 | apply sublist_skip ].
Qed.

Lemma stepsOf_app evs1 evs2 :
  stepsOf (evs1 ++ evs2) = stepsOf evs1 ++ stepsOf evs2.
Proof. unfold stepsOf. apply omap_app. Qed.

Lemma stepsOf_usage evs : Forall isUsageEvent evs → stepsOf evs = [].
Proof.
  induction 1 as [|ev evs Hev _ IH]; [done|].
  destruct ev; try (by destruct Hev); exact IH.
Qed.

Lemma flow_steps_in_order p env w :
  wp (runSubagentAnnounceFlow L p) env w (λ _ evs _,
    stepsOf evs `sublist_of` flowSteps).
Proof.
  flow_run.
  all: rewrite ?stepsOf_app.
  all: repeat match goal with
              | Hf : Forall isUsageEvent ?evs |- context [stepsOf ?evs] =>
                  rewrite (stepsOf_usage evs Hf)
              end.
  all: unfold stepsOf, flowSteps; simpl.
  all: repeat first [ apply sublist_nil | apply sublist_skip; [] | apply sublist_cons
                    | apply sublist_skip ].
Qed.

(** X6.  One run of the announce flow goes through its steps in the order
    of the code, each at most once, the read of the child's latest reply
    at most twice: [agent.wait], [readLatestAssistantReply],
    [resolveAnnounceTarget], [runAgentStep], (the reads of the session
    store for the statistics line,) [randomUUID], [send],
    [sessions.delete].  Of these, [agent.wait], [send] and
    [sessions.delete] are the calls that the flow itself makes through
    [callGateway]: it makes each at most once, in that order, and no call
    of another method.  What the three helpers send through the gateway on
    their own (an announce step starts a run of its own) is theirs and not
    described here.  The flow leaves the registry (claims included) and
    the list of detached flows as they were. *)
Theorem flow_calls_once_in_order (env : Env) (p : AnnounceParams) (w : World) :
  let run := runSubagentAnnounceFlow L p env w in
  let evs := eventsSince w (snd run) in
  stepsOf evs `sublist_of`
    ["agent.wait"; "readLatestAssistantReply"; "readLatestAssistantReply";
     "resolveAnnounceTarget"; "runAgentStep"; "randomUUID"; "send";
     "sessions.delete"]
  ∧ methodsCalled evs `sublist_of` ["agent.wait"; "send"; "sessions.delete"]
  ∧ registry (snd run) = registry w
  ∧ detached (snd run) = detached w.
Proof.
  intros run evs. split.
  - exact (wp_run_elim _ _ _ _ (flow_steps_in_order p env w)).
  - exact (wp_run_elim _ _ _ _ (flow_methods_in_order p env w)).
Qed.
End FlowExtras.

(** ** Prompts *)

Lemma elem_of_filterBoolean (s : string) lines :
  Some s ∈ lines → truthy (Some s) = true → s ∈ filterBoolean lines.
Proof.
  intros Hin Ht. unfold filterBoolean. apply list_elem_of_omap.
  exists (Some s). by rewrite Ht.
Qed.

Lemma prompt_line_included (s : string) lines :
  Some s ∈ lines → truthy (Some s) = true →
  includes (join newline (filterBoolean lines)) s = true.
Proof. intros Hin Ht. by apply includes_join, elem_of_filterBoolean. Qed.

Lemma whenTruthy_included cond text lines :
  whenTruthy cond text ∈ lines → truthy cond = true →
  truthy (Some text) = true →
  includes (join newline (filterBoolean lines)) text = true.
Proof.
  intros Hin Hc Ht. apply prompt_line_included; [|done].
  unfold whenTruthy in Hin. by rewrite Hc in Hin.
Qed.

Ltac in_lines := rewrite !elem_of_cons; tauto.

(** X7.  The directive of the announce step always carries the original
    task, the target provider, the instruction to answer with the exact
    sentinel ["ANNOUNCE_SKIP"] to stay silent, and the sub-agent's result,
    or ["(not available)"] when that result is missing or empty. *)
Theorem announce_prompt_contents (requesterSessionKey requesterProvider : option string)
        (announceChannel task : string) (subagentReply : option string) :
  let prompt :=
    buildSubagentAnnouncePrompt requesterSessionKey requesterProvider
      announceChannel task subagentReply in
  includes prompt ("Original task: " +:+ task) = true
  ∧ includes prompt ("Post target provider: " +:+ announceChannel +:+ ".") = true
  ∧ includes prompt ("Reply exactly " +:+ dquote +:+ "ANNOUNCE_SKIP" +:+ dquote
                     +:+ " to stay silent.") = true
  ∧ includes prompt
      (match subagentReply with
       | Some (String c rest) => "Sub-agent result: " +:+ String c rest
       | _ => "Sub-agent result: (not available)."
       end) = true.
Proof.
  intros prompt. unfold prompt, buildSubagentAnnouncePrompt.
  repeat split.
  - apply prompt_line_included; [in_lines|done].
  - apply prompt_line_included; [in_lines|done].
  - apply prompt_line_included; [in_lines|done].
  - destruct subagentReply as [[|c rest]|]; simpl truthy; cbv iota;
      (apply prompt_line_included; [in_lines|done]).
Qed.

(** X8.  The system prompt of the child always names the child session;
    the label, the requester session and the requester provider appear
    whenever they are given and non-empty. *)
Theorem system_prompt_contents (requesterSessionKey requesterProvider : option string)
        (childSessionKey : string) (label : option string) :
  let prompt :=
    buildSubagentSystemPrompt requesterSessionKey requesterProvider
      childSessionKey label in
  includes prompt ("Your session: " +:+ childSessionKey +:+ ".") = true
  ∧ (if truthy label
     then includes prompt ("Label: " +:+ default EmptyString label) = true
     else True)
  ∧ (if truthy requesterSessionKey
     then includes prompt ("Requester session: "
                           +:+ default EmptyString requesterSessionKey +:+ ".")
          = true
     else True)
  ∧ (if truthy requesterProvider
     then includes prompt ("Requester provider: "
                           +:+ default EmptyString requesterProvider +:+ ".")
          = true
     else True).
Proof.
  intros prompt. unfold prompt, buildSubagentSystemPrompt.
  split; [apply prompt_line_included; [in_lines|done]|].
  split; [|split].
  - destruct (truthy label) eqn:Ht; [|done].
    eapply whenTruthy_included; [|exact Ht|done]. in_lines.
  - destruct (truthy requesterSessionKey) eqn:Ht; [|done].
    eapply whenTruthy_included; [|exact Ht|done]. in_lines.
  - destruct (truthy requesterProvider) eqn:Ht; [|done].
    eapply whenTruthy_included; [|exact Ht|done]. in_lines.
Qed.

Ltac split_in Hin :=
  repeat (rewrite ?elem_of_app, ?elem_of_cons, ?elem_of_nil in Hin);
  repeat match goal with
         | H : _ ∨ _ |- _ => destruct H
         | H : False |- _ => destruct H
         | H : ?ev ∈ ?evs, Hf : Forall isUsageEvent ?evs |- _ =>
             lazymatch ev with
             | EvSleep _ => fail
             | EvLoadSessionStore _ _ _ => fail
             | _ => destruct (proj1 (Forall_forall isUsageEvent evs) Hf _ H)
             end
         end.

Ltac solve_forall :=
  repeat first
    [ apply Forall_nil_2
    | apply Forall_cons_2; [done|]
    | apply Forall_app_2
    | (eapply Forall_impl; [eassumption|]; intros []; done) ].

Section FlowExtras2.
Variable L : Lib.

Lemma flow_first_event p env w :
  wp (runSubagentAnnounceFlow L p) env w (λ _ evs _,
    if truthy (ap_roundOneReply p)
    then ("agent.wait" ∉ methodsCalled evs)
         ∧ Forall (λ ev, match ev with
                         | EvReadLatestAssistantReply _ _ => False
                         | _ => True
                         end) evs
    else if bool_decide (ap_waitForCompletion p = Some false)
         then ("agent.wait" ∉ methodsCalled evs)
              ∧ ∃ r, head evs
                     = Some (EvReadLatestAssistantReply (ap_childSessionKey p) r)
         else ∃ res, head evs
                     = Some (EvGateway
                               {| gw_method := "agent.wait";
                                  gw_params :=
                                    AgentWait (ap_childRunId p)
                                              (Z.min (ap_timeoutMs p) 60000);
                                  gw_timeoutMs :=
                                    Z.min (ap_timeoutMs p) 60000 + 2000 |}
                               res)).
Proof.
  unfold runSubagentAnnounceFlow, announceCleanup, announceTry,
    announceWithReply.
  destruct (truthy (ap_roundOneReply p)) eqn:Ht,
           (bool_decide (ap_waitForCompletion p = Some false)) eqn:Hw;
    cbn [negb andb]; cbv iota.
  all: wp_run;
    try (eapply wp_mono; [apply buildSubagentStatsLine_in_flow|];
         intros [?line|?err] ?evs ?w' (Hf & Hr & Hd & Hl); cbv beta iota;
         wp_run).
  all: try (split; [simpl_methods; set_solver | solve_forall]).
  all: try (split; [simpl_methods; set_solver | by eexists]).
  all: by eexists.
Qed.

(** X9.  How the flow gets the sub-agent's reply.  With a non-empty
    [roundOneReply] it neither waits on the run nor reads the transcript.
    Without one and with [waitForCompletion === false] it does not wait and
    starts by reading the latest reply of the child session.  Otherwise it
    starts with [agent.wait] on the child run, with a budget of
    [min(timeoutMs, 60000)] ms and a transport timeout 2000 ms above it. *)
Theorem flow_reply_source (env : Env) (p : AnnounceParams) (w : World) :
  let evs := eventsSince w (snd (runSubagentAnnounceFlow L p env w)) in
  if truthy (ap_roundOneReply p)
  then ("agent.wait" ∉ methodsCalled evs)
       ∧ Forall (λ ev, match ev with
                       | EvReadLatestAssistantReply _ _ => False
                       | _ => True
                       end) evs
  else if bool_decide (ap_waitForCompletion p = Some false)
       then ("agent.wait" ∉ methodsCalled evs)
            ∧ ∃ r, head evs
                   = Some (EvReadLatestAssistantReply (ap_childSessionKey p) r)
       else ∃ res, head evs
                   = Some (EvGateway
                             {| gw_method := "agent.wait";
                                gw_params :=
                                  AgentWait (ap_childRunId p)
                                            (Z.min (ap_timeoutMs p) 60000);
                                gw_timeoutMs :=
                                  Z.min (ap_timeoutMs p) 60000 + 2000 |}
                             res).
Proof. intros evs. exact (wp_run_elim _ _ _ _ (flow_first_event p env w)). Qed.



Lemma flow_no_target p env w :
  wp (runSubagentAnnounceFlow L p) env w (λ _ evs _,
    ∀ sk dk res,
      EvResolveAnnounceTarget sk dk res ∈ evs →
      match res with
      | Return (Some _) => False
      | _ => True
      end →
      (∀ sp r, EvRunAgentStep sp r ∉ evs)
      ∧ ("send" ∉ methodsCalled evs)
      ∧ storeReads evs = 0%nat).
Proof.
  flow_run.
  all: intros sk dk res Hin Hres; split_in Hin; simplify_eq; try done.
  all: split; [intros sp r Hin'; split_in Hin'; simplify_eq|].
  all: split; [simpl_methods; set_solver|done].
Qed.

(** X11.  If the announce target cannot be resolved (the resolver answers
    with no target, or raises), the flow runs no announce step, never reads
    the session store and sends nothing. *)
Theorem flow_without_target (env : Env) (p : AnnounceParams) (w : World)
        (sk dk : string) (res : Outcome (option AnnounceTarget)) :
  let evs := eventsSince w (snd (runSubagentAnnounceFlow L p env w)) in
  EvResolveAnnounceTarget sk dk res ∈ evs →
  match res with
  | Return (Some _) => False
  | _ => True
  end →
  (∀ sp r, EvRunAgentStep sp r ∉ evs)
  ∧ ("send" ∉ methodsCalled evs)
  ∧ storeReads evs = 0%nat.
Proof.
  intros evs. exact (wp_run_elim _ _ _ _ (flow_no_target p env w) sk dk res).
Qed.



Lemma flow_step_shape p env w :
  wp (runSubagentAnnounceFlow L p) env w (λ _ evs _,
    Forall (λ ev,
      match ev with
      | EvRunAgentStep sp _ =>
          step_sessionKey sp = ap_childSessionKey p
          ∧ step_lane sp = "nested"
          ∧ step_message sp = "Sub-agent announce step."
          ∧ step_timeoutMs sp = ap_timeoutMs p
          ∧ includes (step_extraSystemPrompt sp)
                     ("Original task: " +:+ ap_task p) = true
      | _ => True
      end) evs).
Proof.
  flow_run.
  all: repeat first
    [ apply Forall_nil_2
    | apply Forall_cons_2;
      [ first [ done
              | repeat split; try done;
                apply announce_prompt_contents ] | ]
    | apply Forall_app_2
    | (eapply Forall_impl; [eassumption|]; intros []; done) ].
Qed.

(** X13.  The announce step of a flow always runs on the child session of
    that flow, in the ["nested"] lane, with the flow's [timeoutMs] as its
    budget, and its directive carries the original task. *)
Theorem flow_announce_step_on_child (env : Env) (p : AnnounceParams) (w : World) :
  let evs := eventsSince w (snd (runSubagentAnnounceFlow L p env w)) in
  Forall (λ ev,
    match ev with
    | EvRunAgentStep sp _ =>
        step_sessionKey sp = ap_childSessionKey p
        ∧ step_lane sp = "nested"
        ∧ step_message sp = "Sub-agent announce step."
        ∧ step_timeoutMs sp = ap_timeoutMs p
        ∧ includes (step_extraSystemPrompt sp)
                   ("Original task: " +:+ ap_task p) = true
    | _ => True
    end) evs.
Proof. intros evs. exact (wp_run_elim _ _ _ _ (flow_step_shape p env w)). Qed.

End FlowExtras2.

(** ** The [sessions_spawn] tool: outcomes, calls, registration *)

Ltac solve_sublist :=
  lazymatch goal with
  | |- [] `sublist_of` _ => apply sublist_nil_l
  | |- methodsCalled _ `sublist_of` _ =>
      etrans; [eassumption|]; unfold flowMethods; solve_sublist
  | |- (_ :: _) `sublist_of` (_ :: _) =>
      first [ apply sublist_skip; solve_sublist
            | apply sublist_cons; solve_sublist ]
  end.

Section SpawnExtras.
Variable L : Lib.

Lemma runDetached_in_order ps env w :
  (length ps ≤ 1)%nat →
  wp (runDetached L ps) env w (λ _ evs _,
    methodsCalled evs `sublist_of` flowMethods
    ∧ (ps = [] → evs = [])).
Proof.
  intros Hlen. destruct ps as [|p [|q ps]]; [| |simpl in Hlen; lia]; simpl.
  - wp_run. split; [apply sublist_nil_l|done].
  - wp_step. eapply wp_mono; [apply flow_methods_in_order|].
    intros [[]|e] evs w' (Hs & _ & _); cbv beta iota; wp_run;
      rewrite ?app_nil_r; done.
Qed.

Ltac settle_spawn :=
  simpl detached; unfold announceGate, beginSubagentAnnounce;
  try case_decide; simpl fst; simpl snd; simpl app;
  (eapply wp_mono;
     [apply runDetached_in_order; simpl; first [lia | destruct (decide _); simpl; lia]|]);
  let Hs := fresh "Hflow" in
  let He := fresh "Hnone" in
  intros ? ? ? [Hs He]; cbv beta.

Lemma settled_spawn_summary env opts args w :
  wp (spawnAndSettle L opts args) env w (λ out evs _,
    methodsCalled evs `sublist_of`
      ["sessions.patch"; "sessions.patch"; "agent"; "agent.wait"; "chat.abort";
       "agent.wait"; "send"; "sessions.delete"]
    ∧ match out with
      | Return r =>
          res_status r ∈ ["forbidden"; "error"; "timeout"; "accepted"; "ok"]
          ∧ (res_status r = "ok"
             ∨ (methodsCalled evs `sublist_of`
                  ["sessions.patch"; "sessions.patch"; "agent"; "agent.wait";
                   "chat.abort"]
                ∧ Forall (λ ev, match ev with
                                | EvGateway _ _ | EvRandomUUID _ => True
                                | _ => False
                                end) evs))
      | Raise e =>
          (∃ k, last evs = Some (EvReadLatestAssistantReply k (Raise e)))
          ∧ methodsCalled evs `sublist_of`
              ["sessions.patch"; "sessions.patch"; "agent"; "agent.wait";
               "chat.abort"]
      end).
Proof.
  apply wp_spawnAndSettle. unfold_execute.
  wp_run; settle_spawn.
  all: try (rewrite (Hnone eq_refl)).
  all: simpl_methods.
  all: split; [solve_sublist|].
  all: try (split; [by eexists|solve_sublist]).
  all: simpl res_status.
  all: try (split;
            [|first [ left; reflexivity
                    | right; split;
                      [solve_sublist
                      |simpl app; rewrite ?app_nil_r; by repeat constructor] ]]).
  all: try (destruct (includes _ "gateway timeout")).
  all: rewrite !elem_of_cons; tauto.
Qed.

(** X14.  The tool returns a result whose status is one of ["forbidden"],
    ["error"], ["timeout"], ["accepted"], ["ok"]; it throws in one case
    only: when reading the child's latest reply, after a successful wait,
    throws, and then with that exception. *)
Theorem spawn_outcomes (env : Env) (opts : ToolOpts) (args : SpawnArgs)
        (w : World) :
  let run := spawnAndSettle L opts args env w in
  match fst run with
  | Return r =>
      res_status r ∈ ["forbidden"; "error"; "timeout"; "accepted"; "ok"]
  | Raise e =>
      ∃ k, last (eventsSince w (snd run))
           = Some (EvReadLatestAssistantReply k (Raise e))
  end.
Proof.
  intros run.
  pose proof (proj2 (wp_run_elim _ _ _ _ (settled_spawn_summary env opts args w)))
    as H.
  fold run in H. destruct (fst run); tauto.
Qed.

(** X15.  The calls that the tool and the announce flow it may detach
    make through [callGateway] themselves (the traffic inside the helpers
    [runAgentStep], [readLatestAssistantReply] and [resolveAnnounceTarget]
    is not counted: an announce step starts a run of its own) come in a
    fixed order, each at most once: up to two [sessions.patch], [agent],
    [agent.wait], [chat.abort], then the flow's [agent.wait], [send],
    [sessions.delete].  When the tool returns a result other than ["ok"],
    no helper was invoked at all: every event is one of these calls or the
    draw of a UUID, nothing was sent and, whatever the cleanup policy, the
    child session was not deleted.  When the tool throws, neither [send]
    nor [sessions.delete] was called by it. *)
Theorem spawn_calls_in_order (env : Env) (opts : ToolOpts) (args : SpawnArgs)
        (w : World) :
  let run := spawnAndSettle L opts args env w in
  let evs := eventsSince w (snd run) in
  let methods := methodsCalled evs in
  methods `sublist_of`
    ["sessions.patch"; "sessions.patch"; "agent"; "agent.wait"; "chat.abort";
     "agent.wait"; "send"; "sessions.delete"]
  ∧ match fst run with
    | Return r =>
        if String.eqb (res_status r) "ok" then True
        else ("send" ∉ methods) ∧ ("sessions.delete" ∉ methods)
             ∧ Forall (λ ev, match ev with
                             | EvGateway _ _ | EvRandomUUID _ => True
                             | _ => False
                             end) evs
    | Raise _ => ("send" ∉ methods) ∧ ("sessions.delete" ∉ methods)
    end.
Proof.
  intros run evs methods.
  destruct (wp_run_elim _ _ _ _ (settled_spawn_summary env opts args w))
    as [Hall Hout].
  fold run in Hout. fold run evs methods in Hall, Hout.
  split; [exact Hall|].
  assert (methods `sublist_of`
            ["sessions.patch"; "sessions.patch"; "agent"; "agent.wait";
             "chat.abort"] →
          ("send" ∉ methods) ∧ ("sessions.delete" ∉ methods)) as Hno.
  { intros Hsub. split; intros Hin;
      apply (λ H, elem_of_sublist _ _ _ H Hsub) in Hin;
      repeat (apply elem_of_cons in Hin as [Hin|Hin]; [discriminate Hin|]);
      by apply elem_of_nil in Hin. }
  destruct (fst run) as [r|e].
  - destruct Hout as [_ [Hok|[Hsub Hown]]].
    + by rewrite Hok.
    + destruct (String.eqb (res_status r) "ok"); [done|].
      destruct (Hno Hsub) as [Hsend Hdel]. by repeat split.
  - apply Hno, Hout.
Qed.
End SpawnExtras.

(** ** The [sessions_spawn] tool: what is sent, registered and detached *)

Lemma callsOf_app m evs1 evs2 :
  callsOf m (evs1 ++ evs2) = callsOf m evs1 ++ callsOf m evs2.
Proof.
  unfold callsOf, gatewayCalls. by rewrite omap_app, List.filter_app.
Qed.

Lemma callsOf_nil_elem m evs call res :
  callsOf m evs = [] → EvGateway call res ∈ evs → gw_method call ≠ m.
Proof.
  induction evs as [|ev evs IH]; intros Hnil Hin Hm.
  - by apply elem_of_nil in Hin.
  - apply elem_of_cons in Hin as [<- | Hin].
    + unfold callsOf in Hnil. simpl in Hnil.
      apply String.eqb_eq in Hm. by rewrite Hm in Hnil.
    + apply (IH); [|done|done].
      unfold callsOf in *. simpl in Hnil.
      destruct (gatewayCallOf ev) as [c|]; [|done]. simpl in Hnil.
      by destruct (String.eqb (gw_method c) m).
Qed.

(** A call of method [m] among events that hold exactly one such call is
    that call. *)
Lemma callsOf_unique m pre call0 res0 post call res :
  callsOf m pre = [] → callsOf m post = [] →
  EvGateway call res ∈ pre ++ EvGateway call0 res0 :: post →
  gw_method call = m →
  call = call0 ∧ res = res0.
Proof.
  intros Hpre Hpost Hin Hm.
  apply elem_of_app in Hin as [Hin|Hin].
  { by destruct (callsOf_nil_elem _ _ _ _ Hpre Hin). }
  apply elem_of_cons in Hin as [Heq|Hin]; [by simplify_eq|].
  by destruct (callsOf_nil_elem _ _ _ _ Hpost Hin).
Qed.

Lemma callsOf_between_uuids m u pre idem :
  callsOf m pre = [] →
  callsOf m (EvRandomUUID u :: pre ++ [EvRandomUUID idem]) = [].
Proof.
  intros H. change (callsOf m (pre ++ [EvRandomUUID idem]) = []).
  by rewrite callsOf_app, H.
Qed.

Ltac unfold_vocabulary :=
  unfold requesterIsSubagent, childSystemPromptOf, registeredRun,
    announcedFlow, startedRunId, childSessionKeyOf, requesterDisplayKeyOf,
    requesterInternalKeyOf;
  cbv zeta.

Section SpawnDetails.
Variable L : Lib.



(** Split a list of events, given as conses, before its [agent] call. *)
Ltac find_agent l k :=
  lazymatch l with
  | EvRandomUUID ?idem :: EvGateway (agentCall _ _ _ _) ?res :: ?post =>
      k (@nil Event) idem res post
  | ?x :: ?l' =>
      find_agent l' ltac:(fun pre idem res post => k (x :: pre) idem res post)
  end.

Ltac split_around_agent :=
  lazymatch goal with
  | |- ∃ u idem pre res post, EvRandomUUID ?u0 :: ?l = _ ∧ _ =>
      find_agent l ltac:(fun pre idem res post =>
        exists u0, idem, pre, res, post; split; [reflexivity|])
  end.

Lemma execute_around_agent_call env opts args w :
  wp (execute L opts args) env w (aroundAgentCall L opts args w).
Proof.
  unfold aroundAgentCall.
  unfold_vocabulary. unfold_execute.
  wp_run.
  all: simpl app.
  all: try (left; split; [reflexivity|]; split; [reflexivity|];
            split; [reflexivity|]; eexists; split; [reflexivity|];
            split; [|reflexivity]; first [by left | by right]).
  all: right; split_around_agent.
  all: split; [reflexivity|]; split; [reflexivity|].
  all: try (repeat split; reflexivity).
  all: unfold announceGate, beginSubagentAnnounce;
    destruct (decide _); simpl; repeat split; reflexivity.
Qed.



(** X18.  When the [agent] call answered, the run id is the [runId] of
    the answer if that is a non-empty string and the idempotency key
    otherwise; under this id the run is registered with the child session
    key, the requester keys and provider, the task and the coerced cleanup
    policy, on every path that follows; and every result returned
    afterwards carries this run id and the child session key. *)
Theorem started_run_is_registered (env : Env) (opts : ToolOpts)
        (args : SpawnArgs) (w : World) (call : GatewayCall)
        (response : GatewayResponse) :
  let run := execute L opts args env w in
  let evs := eventsSince w (snd run) in
  EvGateway call (Return response) ∈ evs →
  gw_method call = "agent" →
  ∃ u idem,
    let key := childSessionKeyOf L opts u in
    let runId := startedRunId response idem in
    head evs = Some (EvRandomUUID u)
    ∧ call = agentCall (arg_task args) key idem
                       (childSystemPromptOf L opts args key)
    ∧ reg_runs (registry (snd run))
      = <[runId := registeredRun L opts args key runId]> (reg_runs (registry w))
    ∧ match fst run with
      | Return r => res_childSessionKey r = Some key ∧ res_runId r = Some runId
      | Raise _ => True
      end.
Proof.
  intros run evs Hin Hm.
  destruct (wp_run_elim _ _ _ _ (execute_around_agent_call env opts args w))
    as [(Hnone & _)|(u & idem & pre & res & post & Hevs & Hpre & Hpost & Hres)].
  { by destruct (callsOf_nil_elem _ _ _ _ Hnone Hin). }
  fold run evs in Hevs. fold run in Hres.
  rewrite Hevs in Hin.
  apply (callsOf_unique "agent") in Hin as [-> <-]; [|by apply callsOf_between_uuids|done|done].
  exists u, idem. cbv zeta. split; [by rewrite Hevs|]. split; [done|].
  exact Hres.
Qed.

(** X19.  When no [agent] call answered (none was made, or it threw),
    the tool registers nothing, detaches nothing and returns a result
    with status ["forbidden"] or ["error"]; when the call threw, its
    message is the error of the result, whose run id is the idempotency
    key that was sent. *)
Theorem unstarted_run_leaves_no_trace (env : Env) (opts : ToolOpts)
        (args : SpawnArgs) (w : World) :
  let run := execute L opts args env w in
  let evs := eventsSince w (snd run) in
  (∀ call response,
     EvGateway call (Return response) ∈ evs → gw_method call ≠ "agent") →
  registry (snd run) = registry w
  ∧ detached (snd run) = detached w
  ∧ ∃ r, fst run = Return r
         ∧ (res_status r = "forbidden" ∨ res_status r = "error")
         ∧ ∀ call e,
             EvGateway call (Raise e) ∈ evs → gw_method call = "agent" →
             last evs = Some (EvGateway call (Raise e))
             ∧ res_error r = Some (messageTextOf e)
             ∧ ∃ key idem prompt,
                 call = agentCall (arg_task args) key idem prompt
                 ∧ res_childSessionKey r = Some key
                 ∧ res_runId r = Some idem.
Proof.
  intros run evs Hno.
  destruct (wp_run_elim _ _ _ _ (execute_around_agent_call env opts args w))
    as [(Hnone & Hr & Hd & r & Hout & Hs & _)
       |(u & idem & pre & res & post & Hevs & Hpre & Hpost & Hres)].
  { split; [done|]. split; [done|]. exists r. split; [done|]. split; [done|].
    intros call e Hin Hm.
    by destruct (callsOf_nil_elem _ _ _ _ Hnone Hin). }
  fold run evs in Hevs. fold run in Hres.
  destruct res as [response|e0].
  { exfalso. eapply (Hno _ response);
      [rewrite Hevs; apply elem_of_app; right; apply list_elem_of_here
      |reflexivity]. }
  destruct Hres as (-> & Hr & Hd & Hout).
  split; [done|]. split; [done|]. eexists. split; [exact Hout|].
  split; [by right|].
  intros call e Hin Hm. rewrite Hevs in Hin |- *.
  apply (callsOf_unique "agent") in Hin as [-> Heq];
    [|by apply callsOf_between_uuids|done|done].
  injection Heq as <-.
  split; [by rewrite last_app_cons|]. split; [done|].
  by eexists _, _, _.
Qed.

(** Split a list of events, given as conses, before its [agent.wait] call. *)
Ltac find_wait l k :=
  lazymatch l with
  | EvGateway (waitCall ?runId _) ?wres :: ?post =>
      k (@nil Event) runId wres post
  | ?x :: ?l' =>
      find_wait l' ltac:(fun pre runId wres post => k (x :: pre) runId wres post)
  end.

Ltac split_around_wait :=
  lazymatch goal with
  | |- ∃ u runId pre wres post, EvRandomUUID ?u0 :: ?l = _ ∧ _ =>
      find_wait l ltac:(fun pre runId wres post =>
        exists u0, runId, pre, wres, post; split; [reflexivity|])
  end.

Ltac rewrite_tests :=
  repeat match goal with
         | H : bool_decide _ = _ |- _ => rewrite H
         end.

Lemma execute_around_wait_call env opts args w :
  wp (execute L opts args) env w (aroundWaitCall L opts args w).
Proof.
  pose proof (coerceTimeoutSeconds_nonneg (arg_timeoutSeconds args)) as Hn.
  unfold aroundWaitCall, waitOutcome.
  unfold_vocabulary. unfold_execute.
  wp_run.
  all: simpl app.
  all: try (left; reflexivity).
  all: right; split_around_wait.
  all: split; [reflexivity|]; split; [reflexivity|].
  all: split;
    [match goal with
     | H : (_ =? 0) = false |- _ => apply Z.eqb_neq in H; lia
     end|].
  all: cbv beta iota; rewrite_tests.
  all: try (eexists; split; [reflexivity|]; cbv beta iota).
  all: try (split; [eexists; reflexivity|]).
  all: repeat (split; [reflexivity|]).
  all: try reflexivity.
  all: try (eexists; repeat split; reflexivity).
Qed.


Lemma execute_wait_call_unique env opts args w call wres :
  let run := execute L opts args env w in
  let evs := eventsSince w (snd run) in
  EvGateway call wres ∈ evs → gw_method call = "agent.wait" →
  ∃ u runId pre post,
    evs = (EvRandomUUID u :: pre) ++ EvGateway call wres :: post
    ∧ call = waitCall runId (coerceTimeoutSeconds (arg_timeoutSeconds args) * 1000)
    ∧ waitOutcome L opts args (childSessionKeyOf L opts u) runId wres w post
                  (fst run) (snd run).
Proof.
  intros run evs Hin Hm.
  destruct (wp_run_elim _ _ _ _ (execute_around_wait_call env opts args w))
    as [Hnone|(u & runId & pre & wres0 & post & Hevs & Hpre & Hpost & _ & Hout)].
  { by destruct (callsOf_nil_elem _ _ _ _ Hnone Hin). }
  fold run evs in Hevs. fold run in Hout.
  rewrite Hevs in Hin.
  apply (callsOf_unique "agent.wait") in Hin as [-> ->]; [|exact Hpre|done|done].
  by exists u, runId, pre, post.
Qed.

(** X20.  The answer to [agent.wait] decides the result.  If the call
    threw, the tool stops there and returns status ["timeout"] when the
    message contains ["gateway timeout"] and ["error"] otherwise, with
    the message as error.  If it answered with status ["timeout"], the
    result is ["timeout"] with the answer's error; with status ["error"],
    the tool stops there and the result is ["error"] with the answer's
    error, or ["agent error"] when it has none.  In these cases no flow
    is detached.  With any other status, or none, the last thing the tool
    does is read the child's latest reply: it returns ["ok"] with that
    reply, or throws what the read threw. *)
Theorem wait_answer_decides_result (env : Env) (opts : ToolOpts)
        (args : SpawnArgs) (w : World) (call : GatewayCall)
        (wres : Outcome GatewayResponse) :
  let run := execute L opts args env w in
  let evs := eventsSince w (snd run) in
  EvGateway call wres ∈ evs →
  gw_method call = "agent.wait" →
  match wres with
  | Raise e =>
      last evs = Some (EvGateway call wres)
      ∧ detached (snd run) = detached w
      ∧ ∃ r, fst run = Return r
             ∧ res_status r = (if includes (messageTextOf e) "gateway timeout"
                               then "timeout" else "error")
             ∧ res_error r = Some (messageTextOf e)
  | Return wait =>
      if bool_decide (resp_status wait = Some "timeout") then
        detached (snd run) = detached w
        ∧ ∃ r, fst run = Return r
               ∧ res_status r = "timeout" ∧ res_error r = resp_error wait
      else if bool_decide (resp_status wait = Some "error") then
        last evs = Some (EvGateway call wres)
        ∧ detached (snd run) = detached w
        ∧ ∃ r, fst run = Return r
               ∧ res_status r = "error"
               ∧ res_error r = Some (default "agent error" (resp_error wait))
      else
        ∃ key rres,
          last evs = Some (EvReadLatestAssistantReply key rres)
          ∧ match rres with
            | Return replyText =>
                ∃ r, fst run = Return r
                     ∧ res_status r = "ok" ∧ res_error r = None
                     ∧ res_reply r = replyText
            | Raise e => fst run = Raise e ∧ detached (snd run) = detached w
            end
  end.
Proof.
  intros run evs Hin Hm.
  destruct (execute_wait_call_unique env opts args w call wres Hin Hm)
    as (u & runId & pre & post & Hevs & _ & Hout).
  fold run evs in Hevs. fold run in Hout.
  unfold waitOutcome in Hout. cbv zeta in Hout. rewrite Hevs.
  destruct wres as [wait|e].
  - destruct (bool_decide (resp_status wait = Some "timeout"));
      [|destruct (bool_decide (resp_status wait = Some "error"))].
    + destruct Hout as (_ & Hd & _ & r & Hr & Hs & He & _).
      split; [done|]. by exists r.
    + destruct Hout as (-> & Hd & _ & r & Hr & Hs & He & _).
      split; [by rewrite last_app_cons|]. split; [done|]. by exists r.
    + destruct Hout as (rres & -> & Hrres).
      exists (childSessionKeyOf L opts u), rres.
      split; [by rewrite last_app_cons|].
      destruct rres as [replyText|e].
      * destruct Hrres as (_ & _ & r & Hr & Hs & He & Hreply & _). by exists r.
      * by destruct Hrres as (Hr & Hd & _).
  - destruct Hout as (-> & Hd & _ & r & Hr & Hs & He & _).
    split; [by rewrite last_app_cons|]. split; [done|]. by exists r.
Qed.

(** X21.  When the wait answered with a status other than ["timeout"]
    and ["error"] and the tool returned, the result is for the run that
    was waited for (the run id of the wait request), its reply is what
    the last read of the child session gave, and the announce flow goes
    through the registry's gate once, with: the child session and run of
    the result, the requester keys and provider, the task, the coerced
    cleanup policy, a timeout of 30000 ms, the reply as round-one reply,
    the start and end times of the wait answer, and no
    [waitForCompletion]. *)
Theorem completed_run_is_announced (env : Env) (opts : ToolOpts)
        (args : SpawnArgs) (w : World) (call : GatewayCall)
        (wait : GatewayResponse) (r : SpawnResult) :
  let run := execute L opts args env w in
  let evs := eventsSince w (snd run) in
  EvGateway call (Return wait) ∈ evs →
  gw_method call = "agent.wait" →
  resp_status wait ≠ Some "timeout" →
  resp_status wait ≠ Some "error" →
  fst run = Return r →
  ∃ u runId,
    let key := childSessionKeyOf L opts u in
    let reg1 := registerSubagentRun (registeredRun L opts args key runId)
                                    (registry w) in
    let flow := announcedFlow L opts args key runId (res_reply r) wait in
    head evs = Some (EvRandomUUID u)
    ∧ match gw_params call with
      | AgentWait waited _ => waited = runId
      | _ => False
      end
    ∧ res_childSessionKey r = Some key ∧ res_runId r = Some runId
    ∧ last evs = Some (EvReadLatestAssistantReply key (Return (res_reply r)))
    ∧ detached (snd run) = detached w ++ fst (announceGate flow reg1)
    ∧ registry (snd run) = snd (announceGate flow reg1).
Proof.
  intros run evs Hin Hm Ht He Hr.
  destruct (execute_wait_call_unique env opts args w call _ Hin Hm)
    as (u & runId & pre & post & Hevs & Hcall & Hout).
  fold run evs in Hevs. fold run in Hout.
  unfold waitOutcome in Hout. cbv zeta in Hout.
  rewrite !bool_decide_eq_false_2 in Hout by done.
  destruct Hout as (rres & -> & Hrres).
  rewrite Hr in Hrres.
  destruct rres as [replyText|e]; [|by destruct Hrres].
  destruct Hrres as (Hd & Hreg & r' & [= <-] & _ & _ & <- & Hkey & Hrun).
  exists u, runId. cbv zeta.
  split; [by rewrite Hevs|]. split; [by rewrite Hcall|].
  split; [done|]. split; [done|].
  split; [by rewrite Hevs, last_app_cons|]. done.
Qed.

End SpawnDetails.

(** ** The further properties on concrete runs *)

(** Find, in a list given as conses, an element that makes the rest of the
    conjunction true by computation. *)
Ltac pick_elem :=
  match goal with
  | |- _ ∈ _ :: _ ∧ _ =>
      split; [apply list_elem_of_here|]; [repeat split; reflexivity]
  | |- ?x ∈ _ :: ?l ∧ ?P =>
      cut (x ∈ l ∧ P);
      [intros [? ?]; split; [by apply list_elem_of_further|done]|];
      pick_elem
  end.

(** The token counts are there at the first read: one read, no sleep. *)
Lemma usage_first_read_decides_witness :
  let run :=
    buildSubagentStatsLine Stub.lib "agent:main:subagent:uuid-0"
      (Some 1000) (Some 3500) Scenario.tokensReadyEnv initialWorld in
  hasTokens (Some Stub.entryWithTokens) = true
  ∧ eventsSince initialWorld (snd run)
    = [EvLoadSessionStore "/state/agents/main/sessions/sessions.json"
         "agent:main:subagent:uuid-0" (Return (Some Stub.entryWithTokens))].
Proof.
  intros run. split; [reflexivity|].
  exact (proj1 (proj2
    (usage_first_read_decides Stub.lib Scenario.tokensReadyEnv
       "agent:main:subagent:uuid-0" (Some 1000) (Some 3500) initialWorld
       (Some Stub.entryWithTokens) eq_refl (or_intror eq_refl)))).
Defined.

(** The cost of the second model of the provider, names given with blanks. *)
Lemma resolveModelCost_sound_witness :
  ∃ cost entry,
    resolveModelCost Stub.lib (Some " anthropic ") (Some "claude-opus-4-5 ")
                     Scenario.pricedConfig = Some cost
    ∧ md_id entry = "claude-opus-4-5"
    ∧ md_cost entry = Some cost.
Proof.
  eexists _.
  assert (resolveModelCost Stub.lib (Some " anthropic ")
            (Some "claude-opus-4-5 ") Scenario.pricedConfig
          = Some {| cost_input := 15; cost_output := 75;
                    cost_cacheRead := 3 # 2; cost_cacheWrite := 75 # 4 |})
    as Hcost by (vm_compute; reflexivity).
  destruct (resolveModelCost_sound Stub.lib _ _ _ _ Hcost)
    as (p & m & pre & entry & post & _ & Hm & _ & _ & _ & Hid & Hc & _).
  exists entry. split; [exact Hcost|].
  injection Hm as <-. split; [exact Hid|exact Hc].
Defined.


(** The requester has no announce target: nothing is announced. *)
Lemma flow_without_target_witness :
  let evs :=
    eventsSince initialWorld
      (snd (runSubagentAnnounceFlow Stub.lib (Stub.announceParams CleanupKeep)
              Scenario.noTargetEnv initialWorld)) in
  EvResolveAnnounceTarget "discord:group:req" "discord:group:req" (Return None)
    ∈ evs
  ∧ ("send" ∉ methodsCalled evs)
  ∧ storeReads evs = 0%nat.
Proof.
  intros evs.
  assert (EvResolveAnnounceTarget "discord:group:req" "discord:group:req"
            (Return None) ∈ evs) as Hin.
  { unfold evs. compute_events. elem_of_concrete. }
  split; [exact Hin|].
  exact (proj2 (flow_without_target Stub.lib Scenario.noTargetEnv
                  (Stub.announceParams CleanupKeep) initialWorld
                  _ _ _ Hin I)).
Defined.


(** The run of the first test is registered under the gateway's run id. *)
Lemma started_run_is_registered_witness :
  let run :=
    execute Stub.lib (Stub.opts "discord:group:req")
      (Stub.args None "keep" (JsNum (JsFinite 1))) Stub.happyEnv initialWorld in
  let evs := eventsSince initialWorld (snd run) in
  ∃ call response r,
    EvGateway call (Return response) ∈ evs
    ∧ gw_method call = "agent"
    ∧ resp_runId response = Some "run-1"
    ∧ fst run = Return r
    ∧ res_runId r = Some "run-1"
    ∧ is_Some (reg_runs (registry (snd run)) !! "run-1").
Proof.
  intros run evs.
  assert (∃ call response,
            EvGateway call (Return response) ∈ evs ∧ gw_method call = "agent"
            ∧ resp_runId response = Some "run-1")
    as (call & response & Hin & Hm & Hid).
  { unfold evs. compute_events. eexists _, _. pick_elem. }
  assert (∃ r, fst run = Return r) as [r Hr] by (vm_compute; by eexists).
  exists call, response, r.
  split; [exact Hin|]. split; [exact Hm|]. split; [exact Hid|].
  split; [exact Hr|].
  destruct (started_run_is_registered Stub.lib Stub.happyEnv
              (Stub.opts "discord:group:req")
              (Stub.args None "keep" (JsNum (JsFinite 1))) initialWorld
              call response Hin Hm)
    as (u & idem & _ & _ & Hreg & Hout).
  fold run in Hreg, Hout. rewrite Hr in Hout.
  unfold startedRunId in Hreg, Hout. rewrite Hid in Hreg, Hout.
  split; [exact (proj2 Hout)|].
  rewrite Hreg. simpl. rewrite lookup_insert_eq. by eexists.
Defined.

(** A refused spawn: no run was started, nothing is registered. *)
Lemma unstarted_run_leaves_no_trace_witness :
  let run :=
    execute Stub.lib (Stub.opts "agent:main:subagent:abc")
      (Stub.args None "keep" (JsNum (JsFinite 1))) Stub.happyEnv initialWorld in
  let evs := eventsSince initialWorld (snd run) in
  (∀ call response,
     EvGateway call (Return response) ∈ evs → gw_method call ≠ "agent")
  ∧ registry (snd run) = registry initialWorld
  ∧ detached (snd run) = detached initialWorld.
Proof.
  intros run evs.
  assert (∀ call response,
            EvGateway call (Return response) ∈ evs → gw_method call ≠ "agent")
    as Hno.
  { unfold evs. compute_events. intros call response Hin.
    by apply elem_of_nil in Hin. }
  split; [exact Hno|].
  destruct (unstarted_run_leaves_no_trace Stub.lib Stub.happyEnv
              (Stub.opts "agent:main:subagent:abc")
              (Stub.args None "keep" (JsNum (JsFinite 1))) initialWorld Hno)
    as (Hreg & Hdet & _).
  split; [exact Hreg|exact Hdet].
Defined.

(** The wait answers with status ["timeout"]: so does the tool. *)
Lemma wait_answer_decides_result_witness :
  let run :=
    execute Stub.lib (Stub.opts "discord:group:req")
      (Stub.args None "keep" (JsNum (JsFinite 1)))
      Stub.waitTimeoutEnv initialWorld in
  let evs := eventsSince initialWorld (snd run) in
  ∃ call wait r,
    EvGateway call (Return wait) ∈ evs
    ∧ gw_method call = "agent.wait"
    ∧ resp_status wait = Some "timeout"
    ∧ fst run = Return r
    ∧ res_status r = "timeout"
    ∧ detached (snd run) = [].
Proof.
  intros run evs.
  assert (∃ call wait,
            EvGateway call (Return wait) ∈ evs ∧ gw_method call = "agent.wait"
            ∧ resp_status wait = Some "timeout")
    as (call & wait & Hin & Hm & Hs).
  { unfold evs. compute_events. eexists _, _. pick_elem. }
  pose proof (wait_answer_decides_result Stub.lib Stub.waitTimeoutEnv
                (Stub.opts "discord:group:req")
                (Stub.args None "keep" (JsNum (JsFinite 1))) initialWorld
                call (Return wait) Hin Hm) as H.
  fold run in H. cbv beta iota in H.
  rewrite (bool_decide_eq_true_2 _ Hs) in H.
  destruct H as (Hd & r & Hr & Hst & _).
  exists call, wait, r. by repeat split.
Defined.

(** The first test: the completed run is handed to the announce flow. *)
Lemma completed_run_is_announced_witness :
  let run :=
    execute Stub.lib (Stub.opts "discord:group:req")
      (Stub.args None "delete" (JsNum (JsFinite 1))) Stub.happyEnv initialWorld in
  ∃ flow,
    detached (snd run) = [flow]
    ∧ ap_childRunId flow = "run-1"
    ∧ ap_roundOneReply flow = Some "result"
    ∧ ap_timeoutMs flow = 30000
    ∧ ap_cleanup flow = CleanupDelete
    ∧ ap_startedAt flow = Some 1000.
Proof.
  intros run.
  assert (∃ call wait,
            EvGateway call (Return wait) ∈ eventsSince initialWorld (snd run)
            ∧ gw_method call = "agent.wait"
            ∧ resp_status wait = Some "ok"
            ∧ resp_startedAt wait = Some 1000)
    as (call & wait & Hin & Hm & Hs & Hstart).
  { compute_events. eexists _, _. pick_elem. }
  assert (∃ r, fst run = Return r ∧ res_reply r = Some "result"
               ∧ res_runId r = Some "run-1")
    as (r & Hr & Hreply & Hid)
    by (vm_compute; eexists; repeat split; reflexivity).
  destruct (completed_run_is_announced Stub.lib Stub.happyEnv
              (Stub.opts "discord:group:req")
              (Stub.args None "delete" (JsNum (JsFinite 1))) initialWorld
              call wait r Hin Hm)
    as (u & runId & _ & _ & _ & Hrun & _ & Hd & _).
  { by rewrite Hs. }
  { by rewrite Hs. }
  { exact Hr. }
  fold run in Hd. rewrite Hid in Hrun. injection Hrun as <-.
  unfold announceGate, beginSubagentAnnounce in Hd. simpl in Hd.
  eexists. split; [exact Hd|].
  simpl. rewrite Hreply, Hstart. by repeat split.
Defined.
